(** * Supabase bootstrap scripts: configuration, client factory, schema snapshot

    A shallow embedding of [config.py], [supabase_client.py] and
    [download_supabase_data.py].  Python values of type [Optional[str]] are
    [option string]; dictionaries keyed by strings are [gmap string _];
    effects (environment reads, printing, SDK calls, file writes) are
    recorded in a trace by a small writer-and-exception monad. *)

From Stdlib Require Import Ascii String List Bool.
From stdpp Require Import list gmap strings pretty.

Set Warnings "-register-all".
Open Scope string_scope.
Open Scope list_scope.

(** ** Exceptions and observable events *)

(** The exception classes that matter to the code: [ValueError] is raised by
    the repository itself (and by a failed tuple unpacking),
    [FileNotFoundError] and [OSError] come from file operations, and
    [SdkError] stands for any [Exception] raised inside the [supabase]
    package.  Each carries the text that [str(e)] yields. *)
Inductive exn :=
| ValueError (msg : string)
| FileNotFoundError (msg : string)
| OSError (msg : string)
| SdkError (msg : string).

Definition exn_str (e : exn) : string :=
  match e with
  | ValueError msg | FileNotFoundError msg | OSError msg | SdkError msg => msg
  end.

Definition is_FileNotFoundError (e : exn) : bool :=
  match e with
  | FileNotFoundError _ => true
  | _ => false
  end.

(** JSON-like Python values: what [json.dump] is given. A [dict] keeps its
    insertion order, so an object is an association list. *)
Inductive json :=
| JNull
| JBool (b : bool)
| JNum (n : Z)
| JStr (s : string)
| JArr (items : list json)
| JObj (fields : list (string * json)).

Inductive event :=
| Getenv (name : string)
| Print (line : string)
| CreateClient (supabase_url supabase_key : option string)
| ListUsers
| TableSelect (table_name : string)
| ListBuckets
| OpenRead (path : string)
| OpenWrite (path : string)
| DumpJson (path : string) (value : json)
| WriteText (path : string) (content : string)
| Mkdir (path : string).

(** ** The effect monad: a trace and either an exception or a value *)

Module Eff.

Definition M (A : Type) : Type := list event * (exn + A).

Definition ret {A} (a : A) : M A := ([], inr a).

Definition raise {A} (e : exn) : M A := ([], inl e).

Definition emit (ev : event) : M unit := ([ev], inr tt).

Definition bind {A B} (m : M A) (k : A -> M B) : M B :=
  match m with
  | (t, inl e) => (t, inl e)
  | (t, inr a) => let '(t', r) := k a in (t ++ t', r)
  end.

(** [try: m except Exception as e: h e] *)
Definition try_except {A} (m : M A) (h : exn -> M A) : M A :=
  match m with
  | (t, inl e) => let '(t', r) := h e in (t ++ t', r)
  | (t, inr a) => (t, inr a)
  end.

(** [try: m except C as e: h e] for an exception class [C] *)
Definition try_except_class {A} (C : exn -> bool) (m : M A) (h : exn -> M A)
  : M A :=
  match m with
  | (t, inl e) => if C e then let '(t', r) := h e in (t ++ t', r) else (t, inl e)
  | (t, inr a) => (t, inr a)
  end.

(** an external call: one event, then the outcome the outside world gives *)
Definition call {A} (ev : event) (outcome : exn + A) : M A := ([ev], outcome).

Definition trace {A} (m : M A) : list event := fst m.
Definition outcome {A} (m : M A) : exn + A := snd m.

End Eff.

Import Eff.

Notation "'let*' x ':=' m 'in' k" := (bind m (fun x => k))
  (at level 10, x name, m at level 100, k at level 200,
   format "'let*'  x  :=  m  in  '/' k").

(** ** Python truthiness and formatting *)

(** [bool(v)] for [v : Optional[str]]: [None] and the empty string are falsy. *)
Definition truthy (v : option string) : bool :=
  match v with
  | None => false
  | Some EmptyString => false
  | Some (String _ _) => true
  end.

(** [all(xs)] *)
Definition py_all (xs : list (option string)) : bool := forallb truthy xs.

(** [f"{v}"] for [v : Optional[str]] *)
Definition fmt_opt (v : option string) : string :=
  match v with
  | None => "None"
  | Some s => s
  end.

(** ** config.py *)

Definition environ := gmap string string.

(** [os.getenv(name)]: the value, or [None] for an unset variable. *)
Definition os_getenv (env : environ) (name : string) : M (option string) :=
  call (Getenv name) (inr (env !! name)).

Record SupabaseConfig := {
  url : option string;
  anon_key : option string;
  service_role_key : option string;
  jwt_secret : option string;
  database_url : option string
}.

(** [SupabaseConfig.__init__]; [env] is the process environment as it is
    after [load_dotenv()] has run. *)
Definition SupabaseConfig_init (env : environ) : M SupabaseConfig :=
  let* u := os_getenv env "SUPABASE_URL" in
  let* a := os_getenv env "SUPABASE_ANON_KEY" in
  let* s := os_getenv env "SUPABASE_SERVICE_ROLE_KEY" in
  let* j := os_getenv env "SUPABASE_JWT_SECRET" in
  let* d := os_getenv env "DATABASE_URL" in
  ret {| url := u; anon_key := a; service_role_key := s;
         jwt_secret := j; database_url := d |}.

Definition validate (self : SupabaseConfig) : bool :=
  let required_fields := [url self; anon_key self] in
  py_all required_fields.

Definition get_connection_info (self : SupabaseConfig)
  : gmap string (option string) :=
  <["url" := url self]>
  (<["anon_key" := anon_key self]>
  (<["service_role_key" := service_role_key self]>
  (<["jwt_secret" := jwt_secret self]>
  (<["database_url" := database_url self]> ∅)))).

(** ** supabase_client.py *)

(** A client handle, seen through the three requests this repository makes
    with it.  Each request is made at most once per handle and argument, so
    its outcome is a value: an exception, or what the call returns. *)
Definition row := list (string * json).

Record Client := {
  (** [supabase.auth.admin.list_users(limit=1)] *)
  auth_admin_list_users : exn + unit;
  (** [supabase.table(t).select('*').limit(1).execute()], as [response.data] *)
  table_select_limit1 : string -> exn + option (list row);
  (** [supabase.storage.list_buckets()] *)
  storage_list_buckets : exn + list json
}.

Section WithSdk.

(** The SDK's [create_client(supabase_url, supabase_key)]: the handle it
    builds, or the exception it raises. *)
Variable sdk_create_client : option string -> option string -> exn + Client.

Definition create_client (supabase_url supabase_key : option string) : M Client :=
  call (CreateClient supabase_url supabase_key)
       (sdk_create_client supabase_url supabase_key).

(** The two factories read the module-level [config]; here it is an
    argument. *)
Definition create_supabase_client (config : SupabaseConfig) : M Client :=
  if negb (validate config) then
    raise (ValueError "Supabase 配置不完整，请检查环境变量")
  else
    let* _ := emit (Print ("连接到 Supabase: " +:+ fmt_opt (url config))) in
    create_client (url config) (anon_key config).

Definition create_supabase_admin_client (config : SupabaseConfig) : M Client :=
  if negb (truthy (service_role_key config)) then
    raise (ValueError "Service role key 未配置")
  else
    let* _ := emit (Print ("连接到 Supabase (管理员模式): " +:+ fmt_opt (url config))) in
    create_client (url config) (service_role_key config).

(** What importing [supabase_client] leaves behind: the [config] it imported
    and the module-level [supabase]. *)
Record supabase_client_module := {
  module_config : SupabaseConfig;
  supabase : Client
}.

(** Module initialisation: [from config import config] runs [config.py]
    (which builds the global [config]), the two functions are defined, and
    [supabase = create_supabase_client()] runs. *)
Definition import_supabase_client (env : environ) : M supabase_client_module :=
  let* config := SupabaseConfig_init env in
  let* client := create_supabase_client config in
  ret {| module_config := config; supabase := client |}.

(** ** download_supabase_data.py *)

(** The files the script touches, as the outcomes of its file operations. *)
Record FileSystem := {
  (** [open(path, 'r')]: the error it raises, or the lines the opened file
      holds, each with its newline *)
  fs_read_lines : string -> exn + list string;
  (** [f.read()] on the file opened for reading: the error it raises, if
      any; otherwise it returns the lines joined *)
  fs_read_error : string -> option exn;
  (** [open(path, 'w')] on its own: the file is created or emptied *)
  fs_open_write : string -> exn + unit;
  (** writing the whole content to the file opened with [open(path, 'w')];
      where nothing happens between the two, the opening as well *)
  fs_write : string -> exn + unit;
  (** [Path(path).mkdir(parents=True, exist_ok=True)] *)
  fs_mkdir : string -> exn + unit;
  (** [Path(path).exists()]: the error of the underlying [stat] that it
      raises again, if any (it only swallows the errors of a missing path) *)
  fs_exists_error : string -> option exn;
  (** [Path(path).exists()]: its answer when it does not raise *)
  fs_exists : string -> bool
}.

(** A Python [str] is held as its UTF-8 encoding. [str.strip()] removes the
    code points for which [str.isspace()] holds; they take one, two or three
    bytes. *)

(** [str.isspace] on the ASCII range: U+0009..U+000D, U+001C..U+0020 *)
Definition is_space (c : ascii) : bool :=
  let n := nat_of_ascii c in
  ((9 <=? n) && (n <=? 13) || (28 <=? n) && (n <=? 32))%nat.

(** U+0085 and U+00A0, as [C2 85] and [C2 A0] *)
Definition is_space2 (c1 c2 : ascii) : bool :=
  let n1 := nat_of_ascii c1 in
  let n2 := nat_of_ascii c2 in
  ((n1 =? 194) && ((n2 =? 133) || (n2 =? 160)))%nat.

(** U+1680 as [E1 9A 80]; U+2000..U+200A, U+2028, U+2029 and U+202F as
    [E2 80 80]..[E2 80 8A], [E2 80 A8], [E2 80 A9] and [E2 80 AF]; U+205F as
    [E2 81 9F]; U+3000 as [E3 80 80] *)
Definition is_space3 (c1 c2 c3 : ascii) : bool :=
  let n1 := nat_of_ascii c1 in
  let n2 := nat_of_ascii c2 in
  let n3 := nat_of_ascii c3 in
  ((n1 =? 225) && (n2 =? 154) && (n3 =? 128)
   || (n1 =? 226) && (n2 =? 128)
      && ((128 <=? n3) && (n3 <=? 138)
          || (n3 =? 168) || (n3 =? 169) || (n3 =? 175))
   || (n1 =? 226) && (n2 =? 129) && (n3 =? 159)
   || (n1 =? 227) && (n2 =? 128) && (n3 =? 128))%nat.

(** [s] is exactly one whitespace code point *)
Definition is_whitespace (s : string) : bool :=
  match s with
  | String c1 EmptyString => is_space c1
  | String c1 (String c2 EmptyString) => is_space2 c1 c2
  | String c1 (String c2 (String c3 EmptyString)) => is_space3 c1 c2 c3
  | _ => false
  end.

(** [s] begins with a whitespace code point *)
Definition starts_with_space (s : string) : bool :=
  match s with
  | String c1 r1 =>
      is_space c1
      || match r1 with
         | String c2 r2 =>
             is_space2 c1 c2
             || match r2 with
                | String c3 _ => is_space3 c1 c2 c3
                | EmptyString => false
                end
         | EmptyString => false
         end
  | EmptyString => false
  end.

(** [s.lstrip()] *)
Fixpoint lstrip (s : string) : string :=
  match s with
  | EmptyString => EmptyString
  | String c1 r1 =>
      if is_space c1 then lstrip r1
      else
        match r1 with
        | EmptyString => s
        | String c2 r2 =>
            if is_space2 c1 c2 then lstrip r2
            else
              match r2 with
              | EmptyString => s
              | String c3 r3 => if is_space3 c1 c2 c3 then lstrip r3 else s
              end
        end
  end.

(** [s.rstrip()]: what is left of the tail, with this byte in front, is
    dropped when it is one whitespace code point. *)
Fixpoint rstrip (s : string) : string :=
  match s with
  | EmptyString => EmptyString
  | String c r =>
      let kept := String c (rstrip r) in
      if is_whitespace kept then EmptyString else kept
  end.

(** [s.strip()] *)
Definition strip (s : string) : string := rstrip (lstrip s).

(** [s.split(sep, 1)] when it has two parts; [None] when [sep] does not
    occur and the result is the one-element list [[s]]. *)
Fixpoint split_once (sep : ascii) (s : string) : option (string * string) :=
  match s with
  | EmptyString => None
  | String c r =>
      if Ascii.eqb c sep then Some (EmptyString, r)
      else match split_once sep r with
           | Some (k, v) => Some (String c k, v)
           | None => None
           end
  end.

Definition str_truthy (s : string) : bool :=
  match s with
  | EmptyString => false
  | String _ _ => true
  end.

(** the body of [for line in f] in [load_env_config] *)
Fixpoint load_env_lines (lines : list string) (config : gmap string string)
  : M (gmap string string) :=
  match lines with
  | [] => ret config
  | line :: rest =>
      let line := strip line in
      if str_truthy line && negb (String.prefix "#" line) then
        match split_once "=" line with
        | Some (key, value) => load_env_lines rest (<[key := value]> config)
        | None =>
            raise (ValueError "not enough values to unpack (expected 2, got 1)")
        end
      else load_env_lines rest config
  end.

(** [open] may raise; once the file is open, [for line in f] is taken to
    yield every line it holds. *)
Definition load_env_config (fs : FileSystem) : M (gmap string string) :=
  try_except_class is_FileNotFoundError
    (let* lines := call (OpenRead "env_config.txt")
                        (fs_read_lines fs "env_config.txt") in
     load_env_lines lines ∅)
    (fun _ =>
       let* _ := emit (Print "❌ env_config.txt 文件不存在") in
       ret ∅).

Definition test_supabase_connection (supabase : Client) : M bool :=
  try_except
    (let* response := call ListUsers (auth_admin_list_users supabase) in
     let* _ := emit (Print "✅ Supabase 连接测试成功") in
     ret true)
    (fun e =>
       let* _ := emit (Print ("⚠️ Supabase 连接测试失败: " +:+ exn_str e)) in
       let* _ := emit (Print "继续执行其他操作...") in
       ret true).

Definition common_tables : list string :=
  ["profiles"; "users"; "posts"; "comments"; "settings"].

(** the dictionary appended to [tables_info] for one table *)
Definition table_record (table_name : string) (data : list row) : json :=
  JObj [("table_name", JStr table_name);
        ("exists", JBool true);
        ("sample_data",
         JArr (map JObj (match data with [] => [] | _ => take 1 data end)))].

(** the body of [for table_name in common_tables]; [tables_info] is the list
    being appended to *)
Fixpoint probe_tables (supabase : Client) (names : list string)
    (tables_info : list json) : M (list json) :=
  match names with
  | [] => ret tables_info
  | table_name :: rest =>
      let* tables_info :=
        try_except
          (let* data := call (TableSelect table_name)
                             (table_select_limit1 supabase table_name) in
           match data with
           | Some data => ret (tables_info ++ [table_record table_name data])
           | None => ret tables_info
           end)
          (fun _ => ret tables_info) in
      probe_tables supabase rest tables_info
  end.

Definition get_database_tables (supabase : Client) : M (list json) :=
  try_except
    (let* tables_info := probe_tables supabase common_tables [] in
     let* _ := emit (Print ("✅ 发现 " +:+ pretty (length tables_info)
                              +:+ " 个可访问的表")) in
     ret tables_info)
    (fun e =>
       let* _ := emit (Print ("❌ 获取数据库表信息时出错: " +:+ exn_str e)) in
       ret []).

Definition get_storage_buckets (supabase : Client) : M (list json) :=
  try_except
    (let* buckets := call ListBuckets (storage_list_buckets supabase) in
     let* _ := emit (Print ("✅ 发现 " +:+ pretty (length buckets)
                              +:+ " 个存储桶")) in
     ret buckets)
    (fun e =>
       let* _ := emit (Print ("❌ 获取存储桶信息时出错: " +:+ exn_str e)) in
       ret []).

Definition schema_data (tables_info buckets_info : list json) : json :=
  JObj [("tables", JArr tables_info);
        ("storage_buckets", JArr buckets_info);
        ("metadata",
         JObj [("generated_at", JStr "2025-12-29");
               ("note", JStr "通过Supabase Python SDK获取的基础信息")])].

Definition save_database_schema (fs : FileSystem)
    (tables_info buckets_info : list json) : M bool :=
  try_except
    (let* _ := call (DumpJson "database_schema.json"
                              (schema_data tables_info buckets_info))
                    (fs_write fs "database_schema.json") in
     let* _ := emit (Print "✅ 已保存数据库schema信息到 database_schema.json") in
     ret true)
    (fun e =>
       let* _ := emit (Print ("❌ 保存schema文件时出错: " +:+ exn_str e)) in
       ret false).

(** [src.read()] on the opened [path], which holds [lines] *)
Definition file_read (fs : FileSystem) (path : string) (lines : list string)
  : M string :=
  match fs_read_error fs path with
  | Some e => raise e
  | None => ret (String.concat "" lines)
  end.

Definition create_env_file (fs : FileSystem) : M bool :=
  try_except
    (let* lines := call (OpenRead "env_config.txt")
                        (fs_read_lines fs "env_config.txt") in
     let* _ := call (OpenWrite ".env") (fs_open_write fs ".env") in
     let* content := file_read fs "env_config.txt" lines in
     let* _ := call (WriteText ".env" content) (fs_write fs ".env") in
     let* _ := emit (Print "✅ 已创建 .env 文件") in
     ret true)
    (fun e =>
       let* _ := emit (Print ("❌ 创建.env文件时出错: " +:+ exn_str e)) in
       ret false).

Definition dq : string := String (ascii_of_nat 34) EmptyString.
Definition nl : string := String (ascii_of_nat 10) EmptyString.

(** the TypeScript text of [example_code] *)
Definition example_code : string :=
  String.concat nl [
    "import { serve } from " +:+ dq
      +:+ "https://deno.land/std@0.168.0/http/server.ts" +:+ dq;
    "";
    "console.log(" +:+ dq +:+ "Hello from Supabase Edge Function!" +:+ dq +:+ ")";
    "";
    "serve(async (req) => {";
    "  const { name } = await req.json()";
    "";
    "  const data = {";
    "    message: `Hello ${name || 'World'}!`,";
    "    timestamp: new Date().toISOString(),";
    "  }";
    "";
    "  return new Response(";
    "    JSON.stringify(data),";
    "    { headers: { " +:+ dq +:+ "Content-Type" +:+ dq +:+ ": " +:+ dq
      +:+ "application/json" +:+ dq +:+ " } },";
    "  )";
    "})";
    ""].

(** [Path(path).exists()] *)
Definition path_exists (fs : FileSystem) (path : string) : M bool :=
  match fs_exists_error fs path with
  | Some e => raise e
  | None => ret (fs_exists fs path)
  end.

Definition create_example_edge_function (fs : FileSystem) : M unit :=
  let func_dir := "supabase/functions/example-function" in
  let* _ := call (Mkdir func_dir) (fs_mkdir fs func_dir) in
  let index_file := func_dir +:+ "/index.ts" in
  let* found := path_exists fs index_file in
  if negb found then
    try_except
      (let* _ := call (WriteText index_file example_code)
                      (fs_write fs index_file) in
       emit (Print "✅ 已创建示例Edge Function: supabase/functions/example-function/index.ts"))
      (fun e => emit (Print ("❌ 创建示例函数时出错: " +:+ exn_str e)))
  else ret tt.

Definition main (fs : FileSystem) : M unit :=
  let* _ := emit (Print "🚀 开始下载 Supabase 数据...") in
  let* config := load_env_config fs in
  if bool_decide (config = ∅) then ret tt else
  let url := config !! "SUPABASE_URL" in
  let service_key := config !! "SUPABASE_SERVICE_ROLE_KEY" in
  if negb (truthy url) || negb (truthy service_key) then
    emit (Print "❌ 缺少必要的配置信息")
  else
  let* _ := emit (Print ("📍 连接到: " +:+ fmt_opt url)) in
  let* created :=
    try_except
      (let* client := create_client url service_key in
       let* _ := emit (Print "✅ Supabase 客户端创建成功") in
       ret (Some client))
      (fun e =>
         let* _ := emit (Print ("❌ 创建Supabase客户端失败: " +:+ exn_str e)) in
         ret None) in
  match created with
  | None => ret tt
  | Some supabase =>
  let* connected := test_supabase_connection supabase in
  if negb connected then ret tt else
  let* _ := emit (Print (nl +:+ "🗄️ 获取数据库表信息...")) in
  let* tables_info := get_database_tables supabase in
  let* _ := emit (Print (nl +:+ "📦 获取存储桶信息...")) in
  let* buckets_info := get_storage_buckets supabase in
  let* _ := save_database_schema fs tables_info buckets_info in
  let* _ := emit (Print (nl +:+ "⚙️ 创建环境配置文件...")) in
  let* _ := create_env_file fs in
  let* _ := emit (Print (nl +:+ "🔧 创建示例Edge Function...")) in
  let* _ := create_example_edge_function fs in
  let* _ := emit (Print (nl +:+ "🎉 下载完成！")) in
  let* _ := emit (Print (nl +:+ "📝 总结:")) in
  let* _ := emit (Print ("   - 数据库表: " +:+ pretty (length tables_info) +:+ " 个")) in
  let* _ := emit (Print ("   - 存储桶: " +:+ pretty (length buckets_info) +:+ " 个")) in
  let* _ := emit (Print "   - 配置文件: .env") in
  emit (Print "   - 示例函数: supabase/functions/example-function/")
  end.

End WithSdk.

(** ** Vocabulary of the specification *)

(** A field is present when it holds a non-empty string. *)
Definition present (v : option string) : Prop :=
  exists s, v = Some s /\ s <> "".

(** The record that the environment determines. *)
Definition environ_config (env : environ) : SupabaseConfig :=
  {| url := env !! "SUPABASE_URL";
     anon_key := env !! "SUPABASE_ANON_KEY";
     service_role_key := env !! "SUPABASE_SERVICE_ROLE_KEY";
     jwt_secret := env !! "SUPABASE_JWT_SECRET";
     database_url := env !! "DATABASE_URL" |}.

(** Each key of [get_connection_info] with the variable it is read from. *)
Definition field_variables : list (string * string) :=
  [("url", "SUPABASE_URL");
   ("anon_key", "SUPABASE_ANON_KEY");
   ("service_role_key", "SUPABASE_SERVICE_ROLE_KEY");
   ("jwt_secret", "SUPABASE_JWT_SECRET");
   ("database_url", "DATABASE_URL")].

(** [load()] followed by [describe()] *)
Definition load_then_describe (env : environ)
  : M (gmap string (option string)) :=
  let* config := SupabaseConfig_init env in
  ret (get_connection_info config).

(** The SDK factory was invoked somewhere in the trace. *)
Definition factory_called (t : list event) : Prop :=
  exists u k, In (CreateClient u k) t.

(** A configuration error: a [ValueError] raised by the factory function
    itself, before the SDK is asked for a client. *)
Definition fails_with_configuration_error {A} (m : M A) : Prop :=
  exists msg, outcome m = inl (ValueError msg) /\ ~ factory_called (trace m).

(** What one table name contributes to the enumeration: a record when the
    probe answered with data, nothing when it raised or answered [None]. *)
Definition table_entry (supabase : Client) (table_name : string) : list json :=
  match table_select_limit1 supabase table_name with
  | inr (Some data) => [table_record table_name data]
  | inr None => []
  | inl _ => []
  end.

Definition is_JObj (j : json) : bool :=
  match j with
  | JObj _ => true
  | _ => false
  end.

(** [{table_name: string, exists: boolean, sample_data: at most one row}] *)
Definition is_table_record (j : json) : bool :=
  match j with
  | JObj [(k1, JStr _); (k2, JBool _); (k3, JArr rows)] =>
      bool_decide ([k1; k2; k3] = ["table_name"; "exists"; "sample_data"])
      && (length rows <=? 1)%nat && forallb is_JObj rows
  | _ => false
  end.

(** The shape of the snapshot: exactly the keys [tables], [storage_buckets]
    and [metadata], the last one exactly [generated_at] and [note]. *)
Definition is_snapshot (j : json) : bool :=
  match j with
  | JObj [(k1, JArr tables); (k2, JArr _);
          (k3, JObj [(m1, JStr _); (m2, JStr _)])] =>
      bool_decide ([k1; k2; k3] = ["tables"; "storage_buckets"; "metadata"])
      && bool_decide ([m1; m2] = ["generated_at"; "note"])
      && forallb is_table_record tables
  | _ => false
  end.

(** What an event must satisfy if it writes JSON: it writes the snapshot
    file, and what it writes has the snapshot's shape. *)
Definition writes_only_snapshot (ev : event) : Prop :=
  match ev with
  | DumpJson path value =>
      path = "database_schema.json" /\ is_snapshot value = true
  | _ => True
  end.

(** [sep in s] *)
Fixpoint occurs (sep : ascii) (s : string) : bool :=
  match s with
  | EmptyString => false
  | String c r => Ascii.eqb c sep || occurs sep r
  end.

(** A line [load_env_config] acts on: after stripping it is neither blank
    nor a comment. *)
Definition active_line (line : string) : bool :=
  str_truthy (strip line) && negb (String.prefix "#" (strip line)).

(** An active line without [=]. *)
Definition malformed_line (line : string) : bool :=
  active_line line && negb (occurs "=" (strip line)).

(** The only way [main] asks for a client: with a non-empty URL and a
    non-empty key. *)
Definition client_requested_with_credentials (ev : event) : Prop :=
  match ev with
  | CreateClient supabase_url supabase_key =>
      truthy supabase_url = true /\ truthy supabase_key = true
  | _ => True
  end.

Definition is_WriteText (ev : event) : bool :=
  match ev with
  | WriteText _ _ => true
  | _ => false
  end.

(** ** Sample inputs *)

Module Sample.

Definition rows : list row :=
  [[("id", JNum 1); ("name", JStr "ada")];
   [("id", JNum 2); ("name", JStr "grace")]].

(** [users] has two rows, [posts] is empty, [comments] answers without data,
    every other table is refused. *)
Definition client : Client :=
  {| auth_admin_list_users := inl (SdkError "not authorized");
     table_select_limit1 := fun table_name =>
       if String.eqb table_name "users" then inr (Some rows)
       else if String.eqb table_name "posts" then inr (Some [])
       else if String.eqb table_name "comments" then inr None
       else inl (SdkError "relation does not exist");
     storage_list_buckets := inr [JObj [("name", JStr "avatars")]] |}.

Definition sdk (supabase_url supabase_key : option string) : exn + Client :=
  inr client.

Definition url_only : SupabaseConfig :=
  {| url := Some "https://demo.supabase.co"; anon_key := None;
     service_role_key := None; jwt_secret := None; database_url := None |}.

Definition full : SupabaseConfig :=
  {| url := Some "https://demo.supabase.co"; anon_key := Some "anon";
     service_role_key := Some "service"; jwt_secret := None;
     database_url := None |}.

Definition fs : FileSystem :=
  {| fs_read_lines := fun path =>
       if String.eqb path "env_config.txt" then
         inr ["# demo" +:+ nl;
              "SUPABASE_URL=https://demo.supabase.co" +:+ nl;
              "SUPABASE_SERVICE_ROLE_KEY=service" +:+ nl]
       else inl (FileNotFoundError path);
     fs_read_error := fun _ => None;
     fs_open_write := fun _ => inr tt;
     fs_write := fun _ => inr tt;
     fs_mkdir := fun _ => inr tt;
     fs_exists_error := fun _ => None;
     fs_exists := fun _ => false |}.

(** no [env_config.txt] *)
Definition fs_without_config : FileSystem :=
  {| fs_read_lines := fun path => inl (FileNotFoundError path);
     fs_read_error := fun _ => None;
     fs_open_write := fun _ => inr tt;
     fs_write := fun _ => inr tt;
     fs_mkdir := fun _ => inr tt;
     fs_exists_error := fun _ => None;
     fs_exists := fun _ => false |}.

(** [env_config.txt] cannot be read *)
Definition fs_unreadable : FileSystem :=
  {| fs_read_lines := fun path => inl (OSError "Permission denied");
     fs_read_error := fun _ => None;
     fs_open_write := fun _ => inr tt;
     fs_write := fun _ => inr tt;
     fs_mkdir := fun _ => inr tt;
     fs_exists_error := fun _ => None;
     fs_exists := fun _ => false |}.

(** [env_config.txt] holds a comment and a blank line only *)
Definition fs_comments_only : FileSystem :=
  {| fs_read_lines := fun path => inr ["# nothing yet" +:+ nl; nl];
     fs_read_error := fun _ => None;
     fs_open_write := fun _ => inr tt;
     fs_write := fun _ => inr tt;
     fs_mkdir := fun _ => inr tt;
     fs_exists_error := fun _ => None;
     fs_exists := fun _ => false |}.

(** [env_config.txt] has the URL but no service-role key *)
Definition fs_url_only : FileSystem :=
  {| fs_read_lines := fun path =>
       inr ["SUPABASE_URL=https://demo.supabase.co" +:+ nl];
     fs_read_error := fun _ => None;
     fs_open_write := fun _ => inr tt;
     fs_write := fun _ => inr tt;
     fs_mkdir := fun _ => inr tt;
     fs_exists_error := fun _ => None;
     fs_exists := fun _ => false |}.

(** nothing can be written and [index.ts] is already there *)
Definition fs_read_only : FileSystem :=
  {| fs_read_lines := fs_read_lines fs;
     fs_read_error := fun _ => None;
     fs_open_write := fun _ => inl (OSError "Read-only file system");
     fs_write := fun _ => inl (OSError "Read-only file system");
     fs_mkdir := fun _ => inr tt;
     fs_exists_error := fun _ => None;
     fs_exists := fun _ => true |}.

(** [env_config.txt] opens, but reading it whole fails *)
Definition fs_failing_read : FileSystem :=
  {| fs_read_lines := fs_read_lines fs;
     fs_read_error := fun _ => Some (OSError "Input/output error");
     fs_open_write := fun _ => inr tt;
     fs_write := fun _ => inr tt;
     fs_mkdir := fun _ => inr tt;
     fs_exists_error := fun _ => None;
     fs_exists := fun _ => false |}.

(** looking for [index.ts] is refused *)
Definition fs_stat_denied : FileSystem :=
  {| fs_read_lines := fs_read_lines fs;
     fs_read_error := fun _ => None;
     fs_open_write := fun _ => inr tt;
     fs_write := fun _ => inr tt;
     fs_mkdir := fun _ => inr tt;
     fs_exists_error := fun _ => Some (OSError "Permission denied");
     fs_exists := fun _ => false |}.

(** U+00A0 and U+3000, as Python text holds them, in UTF-8 *)
Definition nbsp : string :=
  String (ascii_of_nat 194) (String (ascii_of_nat 160) EmptyString).
Definition ideographic_space : string :=
  String (ascii_of_nat 227)
    (String (ascii_of_nat 128) (String (ascii_of_nat 128) EmptyString)).

(** an environment with the two required variables *)
Definition env : environ :=
  <["SUPABASE_URL" := "https://demo.supabase.co"]>
    {["SUPABASE_ANON_KEY" := "anon"]}.

(** an SDK that refuses every request for a client *)
Definition sdk_refusing (supabase_url supabase_key : option string)
  : exn + Client :=
  inl (SdkError "Invalid URL").

End Sample.

(** ** The configuration resolver *)

Lemma truthy_present (v : option string) : truthy v = true <-> present v.
Proof.
  unfold present. split.
  - destruct v as [[|c s]|]; simpl; intros H; try discriminate.
    exists (String c s). split; [reflexivity | discriminate].
  - intros (s & -> & Hs). destruct s; [contradiction | reflexivity].
Qed.

(** C1: [validate] holds exactly when [url] and [anon_key] are both present
    and non-empty, whatever the other three fields are. *)
Theorem validate_iff_url_and_anon_key (R : SupabaseConfig) :
  (validate R = true <-> present (url R) /\ present (anon_key R)) /\
  (forall s j d,
     validate {| url := url R; anon_key := anon_key R;
                 service_role_key := s; jwt_secret := j;
                 database_url := d |} = validate R).
Proof.
  split; [| reflexivity].
  unfold validate, py_all. cbn [forallb].
  rewrite andb_true_r, andb_true_iff, !truthy_present. reflexivity.
Qed.

Lemma SupabaseConfig_init_unfold (env : environ) :
  SupabaseConfig_init env =
    (map Getenv (map snd field_variables), inr (environ_config env)).
Proof. reflexivity. Qed.

(** C5: construction reads the five named variables and nothing else, turns
    each unset one into [None], and always returns a record. *)
Theorem load_reads_five_variables (env : environ) :
  SupabaseConfig_init env =
    (map Getenv ["SUPABASE_URL"; "SUPABASE_ANON_KEY";
                 "SUPABASE_SERVICE_ROLE_KEY"; "SUPABASE_JWT_SECRET";
                 "DATABASE_URL"],
     inr (environ_config env)) /\
  (forall env' : environ,
     Forall (fun name => env' !! name = env !! name) (map snd field_variables) ->
     SupabaseConfig_init env' = SupabaseConfig_init env).
Proof.
  split; [reflexivity |].
  intros env' H. cbn in H.
  repeat match goal with
         | H : Forall _ (_ :: _) |- _ => apply Forall_cons in H as [? H]
         end.
  unfold SupabaseConfig_init, os_getenv, call, bind, ret. cbn.
  congruence.
Qed.

(** C4: [load] followed by [describe] returns a mapping with exactly the five
    field names; a variable that is set comes back as the same string, and an
    unset one as [None], which is not a string at all. *)
Theorem load_describe_roundtrip (env : environ) :
  exists info,
    load_then_describe env =
      (map (fun fv => Getenv (snd fv)) field_variables, inr info) /\
    dom info = list_to_set (map fst field_variables) /\
    Forall (fun fv =>
              match env !! snd fv with
              | Some value => info !! fst fv = Some (Some value)
              | None => info !! fst fv = Some None
                        /\ info !! fst fv <> Some (Some "None")
                        /\ info !! fst fv <> Some (Some "undefined")
              end)
           field_variables.
Proof.
  exists (get_connection_info (environ_config env)).
  split; [reflexivity |]. split.
  - unfold get_connection_info. rewrite !dom_insert_L, dom_empty_L.
    cbn. reflexivity.
  - unfold field_variables, get_connection_info, environ_config. cbn.
    repeat constructor; cbn;
      match goal with
      | |- context [match ?o with _ => _ end] => destruct o eqn:E
      end; simplify_map_eq; repeat split; congruence.
Qed.

(** ** The client factory *)

Section FactoryProperties.

Variable sdk : option string -> option string -> exn + Client.

Lemma create_supabase_client_unfold (config : SupabaseConfig) :
  create_supabase_client sdk config =
    if validate config then
      ([Print ("连接到 Supabase: " +:+ fmt_opt (url config));
        CreateClient (url config) (anon_key config)],
       sdk (url config) (anon_key config))
    else ([], inl (ValueError "Supabase 配置不完整，请检查环境变量")).
Proof.
  unfold create_supabase_client. destruct (validate config); reflexivity.
Qed.

Lemma create_supabase_admin_client_unfold (config : SupabaseConfig) :
  create_supabase_admin_client sdk config =
    if truthy (service_role_key config) then
      ([Print ("连接到 Supabase (管理员模式): " +:+ fmt_opt (url config));
        CreateClient (url config) (service_role_key config)],
       sdk (url config) (service_role_key config))
    else ([], inl (ValueError "Service role key 未配置")).
Proof.
  unfold create_supabase_admin_client.
  destruct (truthy (service_role_key config)); reflexivity.
Qed.

Lemma factory_called_nil : ~ factory_called [].
Proof. intros (u & k & []). Qed.

Lemma factory_called_here (line : string) (u k : option string) :
  factory_called [Print line; CreateClient u k].
Proof. exists u, k. right. left. reflexivity. Qed.

(** C2: on a record that is not valid the anonymous factory raises the
    [ValueError] that reports an incomplete configuration, the SDK factory is
    not invoked, and no client comes back. *)
Theorem create_supabase_client_rejects_invalid (config : SupabaseConfig) :
  validate config = false ->
  create_supabase_client sdk config =
    ([], inl (ValueError "Supabase 配置不完整，请检查环境变量")) /\
  fails_with_configuration_error (create_supabase_client sdk config) /\
  ~ factory_called (trace (create_supabase_client sdk config)) /\
  (forall client, outcome (create_supabase_client sdk config) <> inr client).
Proof.
  intros Hinvalid. rewrite create_supabase_client_unfold, Hinvalid.
  repeat split.
  - eexists. split; [reflexivity | apply factory_called_nil].
  - apply factory_called_nil.
  - discriminate.
Qed.

(** C3: the admin factory raises its configuration error exactly when
    [service_role_key] is missing or empty; otherwise it goes straight to the
    SDK with [url] and [service_role_key], and [validate] plays no part:
    changing [anon_key] changes nothing. *)
Theorem create_supabase_admin_client_guard (config : SupabaseConfig) :
  (fails_with_configuration_error (create_supabase_admin_client sdk config)
   <-> ~ present (service_role_key config)) /\
  create_supabase_admin_client sdk config =
    (if truthy (service_role_key config) then
       ([Print ("连接到 Supabase (管理员模式): " +:+ fmt_opt (url config));
         CreateClient (url config) (service_role_key config)],
        sdk (url config) (service_role_key config))
     else ([], inl (ValueError "Service role key 未配置"))) /\
  (forall a,
     create_supabase_admin_client sdk
       {| url := url config; anon_key := a;
          service_role_key := service_role_key config;
          jwt_secret := jwt_secret config;
          database_url := database_url config |}
     = create_supabase_admin_client sdk config).
Proof.
  split; [| split].
  - rewrite <- truthy_present, create_supabase_admin_client_unfold.
    destruct (truthy (service_role_key config)); split.
    + intros (msg & _ & Hnot). exfalso. apply Hnot, factory_called_here.
    + intros H. exfalso. apply H. reflexivity.
    + discriminate.
    + intros _. eexists. split; [reflexivity | apply factory_called_nil].
  - apply create_supabase_admin_client_unfold.
  - intros a. rewrite !create_supabase_admin_client_unfold. reflexivity.
Qed.

(** C6: on a valid record that also has a service-role key, both factories
    hand the SDK the same [url]; the anonymous one passes [anon_key] as the
    credential and the admin one passes [service_role_key]; the handle each
    returns is the one the SDK built from those arguments. *)
Theorem factories_share_endpoint (config : SupabaseConfig) :
  validate config = true ->
  present (service_role_key config) ->
  create_supabase_client sdk config =
    ([Print ("连接到 Supabase: " +:+ fmt_opt (url config));
      CreateClient (url config) (anon_key config)],
     sdk (url config) (anon_key config)) /\
  create_supabase_admin_client sdk config =
    ([Print ("连接到 Supabase (管理员模式): " +:+ fmt_opt (url config));
      CreateClient (url config) (service_role_key config)],
     sdk (url config) (service_role_key config)).
Proof.
  intros Hvalid Hkey. apply truthy_present in Hkey.
  rewrite create_supabase_client_unfold, create_supabase_admin_client_unfold.
  rewrite Hvalid, Hkey. split; reflexivity.
Qed.

Lemma import_supabase_client_unfold (env : environ) :
  import_supabase_client sdk env =
    if validate (environ_config env) then
      (map Getenv (map snd field_variables) ++
       [Print ("连接到 Supabase: " +:+ fmt_opt (url (environ_config env)));
        CreateClient (url (environ_config env)) (anon_key (environ_config env))],
       match sdk (url (environ_config env)) (anon_key (environ_config env)) with
       | inl e => inl e
       | inr client =>
           inr {| module_config := environ_config env; supabase := client |}
       end)
    else (map Getenv (map snd field_variables),
          inl (ValueError "Supabase 配置不完整，请检查环境变量")).
Proof.
  unfold import_supabase_client. rewrite SupabaseConfig_init_unfold.
  unfold bind at 1. rewrite create_supabase_client_unfold.
  destruct (validate (environ_config env)); [| reflexivity].
  unfold bind.
  destruct (sdk (url (environ_config env)) (anon_key (environ_config env)));
    reflexivity.
Qed.

(** C9: importing [supabase_client] builds the anonymous client at once.  With
    an invalid environment the import raises the configuration error without
    asking the SDK.  With a valid one the import itself asks the SDK for a
    client, with the configured [url] and [anon_key], and succeeds exactly
    when the SDK answers with one; when the import succeeds, the module
    already holds that handle. *)
Theorem import_supabase_client_eager (env : environ) :
  (validate (environ_config env) = false ->
   outcome (import_supabase_client sdk env)
     = inl (ValueError "Supabase 配置不完整，请检查环境变量") /\
   ~ factory_called (trace (import_supabase_client sdk env))) /\
  (forall m,
     outcome (import_supabase_client sdk env) = inr m ->
     validate (environ_config env) = true /\
     module_config m = environ_config env /\
     sdk (url (environ_config env)) (anon_key (environ_config env))
       = inr (supabase m) /\
     In (CreateClient (url (environ_config env)) (anon_key (environ_config env)))
        (trace (import_supabase_client sdk env))) /\
  (validate (environ_config env) = true ->
   trace (import_supabase_client sdk env) =
     map Getenv (map snd field_variables) ++
     [Print ("连接到 Supabase: " +:+ fmt_opt (url (environ_config env)));
      CreateClient (url (environ_config env)) (anon_key (environ_config env))]
   /\
   outcome (import_supabase_client sdk env) =
     match sdk (url (environ_config env)) (anon_key (environ_config env)) with
     | inl e => inl e
     | inr client =>
         inr {| module_config := environ_config env; supabase := client |}
     end).
Proof.
  rewrite import_supabase_client_unfold.
  destruct (validate (environ_config env)) eqn:Hvalid; unfold outcome, trace.
  - split; [discriminate |]. split; [| intros _; split; reflexivity].
    intros m. cbn [fst snd].
    destruct (sdk (url (environ_config env)) (anon_key (environ_config env)))
      as [e | client] eqn:Hsdk; [intros [=] |].
    intros [= <-]. cbn. repeat split; auto 10.
  - split; [| split; [| discriminate]].
    + intros _. cbn [fst snd]. split; [reflexivity |].
      intros (u & k & Hin). cbn in Hin.
      repeat destruct Hin as [Hin | Hin]; try discriminate; contradiction.
    + intros m. cbn. intros [=].
Qed.

End FactoryProperties.

(** ** The schema snapshot tool *)

Lemma probe_tables_unfold (supabase : Client) (names : list string) :
  forall tables_info,
    probe_tables supabase names tables_info =
      (map TableSelect names,
       inr (tables_info ++ flat_map (table_entry supabase) names)).
Proof.
  induction names as [| table_name rest IH]; intros tables_info.
  - cbn. rewrite app_nil_r. reflexivity.
  - cbn [probe_tables map flat_map]. unfold table_entry at 1.
    unfold call, try_except, bind, ret.
    destruct (table_select_limit1 supabase table_name) as [e | [data |]];
      rewrite IH; cbn; rewrite <- ?app_assoc; reflexivity.
Qed.

Lemma get_database_tables_unfold (supabase : Client) :
  get_database_tables supabase =
    (map TableSelect common_tables ++
     [Print ("✅ 发现 "
             +:+ pretty (length (flat_map (table_entry supabase) common_tables))
             +:+ " 个可访问的表")],
     inr (flat_map (table_entry supabase) common_tables)).
Proof.
  unfold get_database_tables. rewrite probe_tables_unfold. reflexivity.
Qed.

(** C7: whatever each probe does, the enumeration returns a list; all five
    names are probed in order, a name whose probe raises contributes nothing,
    and every other name contributes as if no probe had failed. *)
Theorem get_database_tables_skips_failures (supabase : Client) :
  get_database_tables supabase =
    (map TableSelect common_tables ++
     [Print ("✅ 发现 "
             +:+ pretty (length (flat_map (table_entry supabase) common_tables))
             +:+ " 个可访问的表")],
     inr (flat_map (table_entry supabase) common_tables)) /\
  Forall (fun table_name =>
            forall e, table_select_limit1 supabase table_name = inl e ->
                      table_entry supabase table_name = [])
         common_tables.
Proof.
  split.
  - apply get_database_tables_unfold.
  - apply Forall_forall. intros table_name _ e He.
    unfold table_entry. rewrite He. reflexivity.
Qed.

(** *** Reasoning about traces *)

Section TraceLemmas.

Context {A B : Type}.
Variable P : event -> Prop.

Lemma Forall_trace_ret (a : A) : Forall P (trace (ret a)).
Proof. constructor. Qed.

Lemma Forall_trace_raise (e : exn) : Forall P (trace (@raise A e)).
Proof. constructor. Qed.

Lemma Forall_trace_emit (ev : event) : P ev -> Forall P (trace (emit ev)).
Proof. intros H. repeat constructor. exact H. Qed.

Lemma Forall_trace_call (ev : event) (r : exn + A) :
  P ev -> Forall P (trace (call ev r)).
Proof. intros H. repeat constructor. exact H. Qed.

Lemma Forall_trace_bind (m : M A) (k : A -> M B) :
  Forall P (trace m) ->
  (forall a, outcome m = inr a -> Forall P (trace (k a))) ->
  Forall P (trace (bind m k)).
Proof.
  destruct m as [t [e | a]]; cbn; intros Ht Hk; [exact Ht |].
  specialize (Hk a eq_refl). destruct (k a) as [t' r]. cbn in *.
  rewrite Forall_app. split; assumption.
Qed.

Lemma Forall_trace_try_except (m : M A) (h : exn -> M A) :
  Forall P (trace m) ->
  (forall e, outcome m = inl e -> Forall P (trace (h e))) ->
  Forall P (trace (try_except m h)).
Proof.
  destruct m as [t [e | a]]; cbn; intros Ht Hh; [| exact Ht].
  specialize (Hh e eq_refl). destruct (h e) as [t' r]. cbn in *.
  rewrite Forall_app. split; assumption.
Qed.

Lemma Forall_trace_try_except_class (C : exn -> bool) (m : M A)
    (h : exn -> M A) :
  Forall P (trace m) ->
  (forall e, outcome m = inl e -> Forall P (trace (h e))) ->
  Forall P (trace (try_except_class C m h)).
Proof.
  destruct m as [t [e | a]]; cbn; intros Ht Hh; [| exact Ht].
  specialize (Hh e eq_refl). destruct (C e); [| exact Ht].
  destruct (h e) as [t' r]. cbn in *.
  rewrite Forall_app. split; assumption.
Qed.

Lemma trace_bind (m : M A) (k : A -> M B) :
  fst (bind m k) =
    fst m ++ match snd m with
             | inr a => fst (k a)
             | inl _ => []
             end.
Proof.
  destruct m as [t [e | a]]; cbn.
  - rewrite app_nil_r. reflexivity.
  - destruct (k a). reflexivity.
Qed.

End TraceLemmas.

(** Splits a goal [Forall P (trace m)] along the structure of [m]. *)
Ltac trace_forall :=
  repeat first
    [ apply Forall_trace_ret
    | apply Forall_trace_raise
    | apply Forall_trace_emit
    | apply Forall_trace_call
    | apply Forall_trace_bind; [| intros ? ?]
    | apply Forall_trace_try_except; [| intros ? ?]
    | apply Forall_trace_try_except_class; [| intros ? ?]
    | match goal with
      | |- Forall _ (trace (if ?b then _ else _)) => destruct b eqn:?
      | |- Forall _ (trace (match ?x with _ => _ end)) => destruct x eqn:?
      end ].

Lemma load_env_lines_trace (lines : list string) :
  forall config, trace (load_env_lines lines config) = [].
Proof.
  induction lines as [| line rest IH]; intros config; [reflexivity |].
  cbn [load_env_lines].
  destruct (str_truthy (strip line) && negb (String.prefix "#" (strip line)));
    [| apply IH].
  destruct (split_once "=" (strip line)) as [[key value] |];
    [apply IH | reflexivity].
Qed.

Lemma table_record_shape (table_name : string) (data : list row) :
  is_table_record (table_record table_name data) = true.
Proof.
  unfold table_record, is_table_record.
  rewrite bool_decide_eq_true_2 by reflexivity.
  destruct data as [| r [| r' data]]; reflexivity.
Qed.

Lemma table_entries_shape (supabase : Client) (names : list string) :
  forallb is_table_record (flat_map (table_entry supabase) names) = true.
Proof.
  induction names as [| table_name rest IH]; [reflexivity |].
  cbn [flat_map]. rewrite forallb_app, IH, andb_true_r.
  unfold table_entry.
  destruct (table_select_limit1 supabase table_name) as [e | [data |]];
    [reflexivity | | reflexivity].
  cbn [forallb]. rewrite table_record_shape. reflexivity.
Qed.

Lemma snapshot_of_enumeration (supabase : Client)
    (tables_info buckets_info : list json) :
  outcome (get_database_tables supabase) = inr tables_info ->
  is_snapshot (schema_data tables_info buckets_info) = true.
Proof.
  rewrite get_database_tables_unfold. intros [= <-].
  unfold schema_data, is_snapshot.
  rewrite !bool_decide_eq_true_2 by reflexivity.
  exact (table_entries_shape supabase common_tables).
Qed.

Lemma save_database_schema_unfold (fs : FileSystem)
    (tables_info buckets_info : list json) :
  exists rest result,
    save_database_schema fs tables_info buckets_info =
      (DumpJson "database_schema.json" (schema_data tables_info buckets_info)
       :: Print rest :: [], inr result).
Proof.
  unfold save_database_schema, call, try_except, bind, emit, ret.
  destruct (fs_write fs "database_schema.json") as [e | []]; cbn;
    eexists _, _; reflexivity.
Qed.

Section MainProperties.

Variable sdk : option string -> option string -> exn + Client.
Variable fs : FileSystem.

Lemma main_writes_only_snapshot :
  Forall writes_only_snapshot (trace (main sdk fs)).
Proof.
  unfold main, load_env_config, create_client, test_supabase_connection,
    get_storage_buckets, create_env_file, create_example_edge_function,
    file_read, path_exists.
  trace_forall; try exact I.
  all: try (rewrite load_env_lines_trace; constructor).
  split; [reflexivity |].
  eapply snapshot_of_enumeration; eassumption.
Qed.

Lemma test_supabase_connection_unfold (supabase : Client) :
  test_supabase_connection supabase =
    (ListUsers ::
     match auth_admin_list_users supabase with
     | inr _ => [Print "✅ Supabase 连接测试成功"]
     | inl e => [Print ("⚠️ Supabase 连接测试失败: " +:+ exn_str e);
                 Print "继续执行其他操作..."]
     end,
     inr true).
Proof.
  unfold test_supabase_connection, call, try_except, bind, emit, ret.
  destruct (auth_admin_list_users supabase); reflexivity.
Qed.

(** Refutes [Hin : In ListUsers t] for a trace [t] built from literal
    events and a part [Hquiet] says is free of [ListUsers]. *)
Ltac no_ListUsers Hin :=
  repeat match goal with
         | H : Forall _ _ |- _ => rewrite List.Forall_forall in H
         end;
  repeat first [ rewrite List.in_app_iff in Hin
               | progress cbn [In ret emit fst] in Hin ];
  destruct_or!;
  solve [ discriminate
        | contradiction
        | match goal with
          | H : forall x, In x _ -> _ |- _ =>
              eapply H; [eassumption | reflexivity]
          end ].

Lemma main_prelude_quiet :
  Forall (fun ev => ev <> ListUsers) (trace (load_env_config fs)).
Proof.
  unfold load_env_config. trace_forall; try discriminate.
  rewrite load_env_lines_trace. constructor.
Qed.

Lemma main_after_connection_test :
  In ListUsers (trace (main sdk fs)) ->
  exists before supabase after,
    trace (main sdk fs) =
      before ++ trace (test_supabase_connection supabase)
             ++ Print (nl +:+ "🗄️ 获取数据库表信息...")
             :: trace (get_database_tables supabase) ++ after.
Proof.
  pose proof main_prelude_quiet as Hquiet.
  assert (Hconnected : forall supabase,
             snd (test_supabase_connection supabase) = inr true)
    by (intros; rewrite test_supabase_connection_unfold; reflexivity).
  unfold trace, outcome in *. unfold main.
  rewrite trace_bind. cbn [emit fst snd]. rewrite trace_bind.
  destruct (load_env_config fs) as [t0 [e0 | config]]; cbn [fst snd] in *.
  { intros Hin. exfalso. no_ListUsers Hin. }
  destruct (bool_decide (config = ∅)).
  { intros Hin. exfalso. no_ListUsers Hin. }
  destruct (negb (truthy (config !! "SUPABASE_URL"))
            || negb (truthy (config !! "SUPABASE_SERVICE_ROLE_KEY"))).
  { intros Hin. exfalso. no_ListUsers Hin. }
  rewrite trace_bind. cbn [emit fst snd]. rewrite trace_bind.
  match goal with
  | |- context [try_except ?m ?h] =>
      assert (Hcreate : Forall (fun ev => ev <> ListUsers)
                               (fst (try_except m h)))
        by (unfold create_client; trace_forall; discriminate);
      destruct (try_except m h) as [t1 [e1 | [supabase |]]]
  end; cbn [fst snd] in *.
  { intros Hin. exfalso. no_ListUsers Hin. }
  2: { intros Hin. exfalso. no_ListUsers Hin. }
  intros _. rewrite trace_bind, Hconnected. cbn [negb].
  rewrite trace_bind. cbn [emit fst snd]. rewrite trace_bind.
  match goal with
  | |- exists _ _ _, ?a ++ ?b ++ ?c ++ ?d ++ _ ++ _ ++ _ ++ ?r = _ =>
      exists (a ++ b ++ c ++ d), supabase, r
  end.
  rewrite <- !app_assoc. reflexivity.
Qed.

End MainProperties.

(** C8: every JSON document the tool writes goes to [database_schema.json]
    and is an object with exactly the keys [tables], [storage_buckets] and
    [metadata]; [tables] holds records [{table_name, exists, sample_data}]
    with a string, a boolean and a list of at most one row; [metadata] holds
    [generated_at] and [note]. *)
Theorem snapshot_artifact_shape
    (sdk : option string -> option string -> exn + Client) (fs : FileSystem) :
  Forall writes_only_snapshot (trace (main sdk fs)) /\
  (forall supabase buckets_info,
     exists tables_info,
       outcome (get_database_tables supabase) = inr tables_info /\
       is_snapshot (schema_data tables_info buckets_info) = true /\
       exists line result,
         save_database_schema fs tables_info buckets_info =
           ([DumpJson "database_schema.json"
                      (schema_data tables_info buckets_info);
             Print line], inr result)).
Proof.
  split; [apply main_writes_only_snapshot |].
  intros supabase buckets_info.
  exists (flat_map (table_entry supabase) common_tables).
  split; [rewrite get_database_tables_unfold; reflexivity |].
  split; [| apply save_database_schema_unfold].
  eapply snapshot_of_enumeration.
  rewrite get_database_tables_unfold. reflexivity.
Qed.

(** C10: the connection test answers [True] whether the probe succeeds or
    raises, so once [main] has made the probe it always goes on to
    enumerate the tables. *)
Theorem test_supabase_connection_never_stops_main
    (sdk : option string -> option string -> exn + Client) (fs : FileSystem) :
  (forall supabase, outcome (test_supabase_connection supabase) = inr true) /\
  (forall supabase e,
     auth_admin_list_users supabase = inl e ->
     outcome (test_supabase_connection supabase) = inr true) /\
  (In ListUsers (trace (main sdk fs)) ->
   In (Print (nl +:+ "🗄️ 获取数据库表信息...")) (trace (main sdk fs)) /\
   Forall (fun table_name => In (TableSelect table_name) (trace (main sdk fs)))
          common_tables).
Proof.
  assert (Htrue : forall supabase,
             outcome (test_supabase_connection supabase) = inr true)
    by (intros; rewrite test_supabase_connection_unfold; reflexivity).
  split; [exact Htrue |]. split; [intros; apply Htrue |].
  intros Hreached.
  destruct (main_after_connection_test sdk fs Hreached)
    as (before & supabase & after & ->).
  rewrite get_database_tables_unfold. cbn [trace fst].
  split.
  - do 2 (apply in_or_app; right). apply in_eq.
  - apply List.Forall_forall. intros table_name Hname.
    do 2 (apply in_or_app; right). apply in_cons.
    do 2 (apply in_or_app; left). apply in_map. exact Hname.
Qed.

(** ** The theorems at sample inputs *)

Lemma create_supabase_client_rejects_invalid_witness :
  validate Sample.url_only = false /\
  create_supabase_client Sample.sdk Sample.url_only =
    ([], inl (ValueError "Supabase 配置不完整，请检查环境变量")) /\
  fails_with_configuration_error
    (create_supabase_client Sample.sdk Sample.url_only) /\
  ~ factory_called (trace (create_supabase_client Sample.sdk Sample.url_only)) /\
  (forall client,
     outcome (create_supabase_client Sample.sdk Sample.url_only) <> inr client).
Proof.
  split; [reflexivity |].
  apply (create_supabase_client_rejects_invalid Sample.sdk Sample.url_only).
  reflexivity.
Defined.

Lemma factories_share_endpoint_witness :
  validate Sample.full = true /\
  present (service_role_key Sample.full) /\
  create_supabase_client Sample.sdk Sample.full =
    ([Print "连接到 Supabase: https://demo.supabase.co";
      CreateClient (Some "https://demo.supabase.co") (Some "anon")],
     inr Sample.client) /\
  create_supabase_admin_client Sample.sdk Sample.full =
    ([Print "连接到 Supabase (管理员模式): https://demo.supabase.co";
      CreateClient (Some "https://demo.supabase.co") (Some "service")],
     inr Sample.client).
Proof.
  assert (Hkey : present (service_role_key Sample.full))
    by (apply truthy_present; reflexivity).
  split; [reflexivity |]. split; [exact Hkey |].
  apply (factories_share_endpoint Sample.sdk Sample.full); [reflexivity |].
  exact Hkey.
Defined.

(** A record without [url] and [anon_key] is not valid, yet the admin factory
    still asks the SDK for a client. *)
Example admin_client_on_invalid_record :
  let config := {| url := None; anon_key := None;
                   service_role_key := Some "service";
                   jwt_secret := None; database_url := None |} in
  validate config = false /\
  create_supabase_admin_client Sample.sdk config =
    ([Print "连接到 Supabase (管理员模式): None";
      CreateClient None (Some "service")],
     inr Sample.client).
Proof. split; reflexivity. Qed.

Example enumeration_sample :
  outcome (get_database_tables Sample.client) =
    inr [table_record "users" Sample.rows; table_record "posts" []] /\
  table_record "users" Sample.rows =
    JObj [("table_name", JStr "users"); ("exists", JBool true);
          ("sample_data", JArr [JObj [("id", JNum 1); ("name", JStr "ada")]])].
Proof. split; reflexivity. Qed.

Example main_sample_reaches_connection_test :
  In ListUsers (trace (main Sample.sdk Sample.fs)) /\
  In (DumpJson "database_schema.json"
        (schema_data [table_record "users" Sample.rows; table_record "posts" []]
                     [JObj [("name", JStr "avatars")]]))
     (trace (main Sample.sdk Sample.fs)) /\
  outcome (main Sample.sdk Sample.fs) = inr tt.
Proof. vm_compute. intuition. Qed.

(** * Further properties of the code *)

(** ** Parsing [env_config.txt] *)

Lemma split_once_Some_iff (sep : ascii) (s : string) :
  forall key value,
    split_once sep s = Some (key, value) <->
    s = key +:+ String sep value /\ occurs sep key = false.
Proof.
  induction s as [| c r IH]; intros key value; cbn [split_once].
  - split; [discriminate |]. intros [H _]. destruct key; discriminate H.
  - destruct (Ascii.eqb c sep) eqn:Hc.
    + apply Ascii.eqb_eq in Hc. subst c. split.
      * intros [= <- <-]. split; reflexivity.
      * intros [Hs Hk]. destruct key as [| c' key'].
        -- cbn in Hs. injection Hs as ->. reflexivity.
        -- cbn in Hs. injection Hs as -> _. cbn in Hk.
           rewrite Ascii.eqb_refl in Hk. discriminate Hk.
    + destruct (split_once sep r) as [[k v] |] eqn:Hr; split.
      * intros [= <- <-]. destruct (proj1 (IH k v) eq_refl) as [-> Hk].
        split; [reflexivity |]. cbn. rewrite Hc, Hk. reflexivity.
      * intros [Hs Hk]. destruct key as [| c' key'].
        -- cbn in Hs. injection Hs as -> _.
           rewrite Ascii.eqb_refl in Hc. discriminate Hc.
        -- cbn in Hs. injection Hs as <- ->. cbn in Hk.
           apply orb_false_iff in Hk as [_ Hk].
           assert (Hkv : Some (k, v) = Some (key', value))
             by (apply IH; split; [reflexivity | exact Hk]).
           injection Hkv as -> ->. reflexivity.
      * discriminate.
      * intros [Hs Hk]. exfalso. destruct key as [| c' key'].
        -- cbn in Hs. injection Hs as -> _.
           rewrite Ascii.eqb_refl in Hc. discriminate Hc.
        -- cbn in Hs. injection Hs as <- ->. cbn in Hk.
           apply orb_false_iff in Hk as [_ Hk].
           assert (Hkv : None = Some (key', value))
             by (apply IH; split; [reflexivity | exact Hk]).
           discriminate Hkv.
Qed.

(** X1: [line.split('=', 1)] cuts at the first separator: the key is what
    precedes it and holds no separator, the value is everything after it,
    further separators included, and joining them gives the line back. *)
Theorem split_once_first_separator (sep : ascii) (s key value : string) :
  split_once sep s = Some (key, value) <->
  s = key +:+ String sep value /\ occurs sep key = false.
Proof. apply split_once_Some_iff. Qed.

Lemma split_once_None_iff (sep : ascii) (s : string) :
  split_once sep s = None <-> occurs sep s = false.
Proof.
  induction s as [| c r IH]; cbn; [tauto |].
  destruct (Ascii.eqb c sep); cbn; [split; discriminate |].
  destruct (split_once sep r) as [[k v] |].
  - split; [discriminate |]. intros H. apply IH in H. discriminate H.
  - split; intros _; [apply IH |]; reflexivity.
Qed.

(** X2: the split yields a single part, which the unpacking cannot take,
    exactly when the separator does not occur in the line. *)
Theorem split_once_fails_without_separator (sep : ascii) (s : string) :
  split_once sep s = None <-> occurs sep s = false.
Proof. apply split_once_None_iff. Qed.

Lemma string_length_ind (P : string -> Prop) :
  (forall s, (forall t, String.length t < String.length s -> P t) -> P s) ->
  forall s, P s.
Proof.
  intros H s.
  induction s as [s IH]
    using (well_founded_induction
             (Wf_nat.well_founded_ltof _ String.length)).
  apply H. exact IH.
Qed.

Lemma append_cons (c : ascii) (a b : string) :
  String c a +:+ b = String c (a +:+ b).
Proof. reflexivity. Qed.

Lemma lstrip_no_space (s : string) : starts_with_space (lstrip s) = false.
Proof.
  induction s as [s IH] using string_length_ind.
  destruct s as [| c1 r1]; [reflexivity |]. cbn [lstrip].
  destruct (is_space c1) eqn:H1; [apply IH; cbn; lia |].
  destruct r1 as [| c2 r2].
  { cbn [starts_with_space]. rewrite H1. reflexivity. }
  destruct (is_space2 c1 c2) eqn:H2; [apply IH; cbn; lia |].
  destruct r2 as [| c3 r3].
  { cbn [starts_with_space]. rewrite H1, H2. reflexivity. }
  destruct (is_space3 c1 c2 c3) eqn:H3; [apply IH; cbn; lia |].
  cbn [starts_with_space]. rewrite H1, H2, H3. reflexivity.
Qed.

Lemma lstrip_fixed (s : string) :
  starts_with_space s = false -> lstrip s = s.
Proof.
  destruct s as [| c1 r1]; [reflexivity |].
  cbn [starts_with_space lstrip].
  destruct (is_space c1); [discriminate |]. cbn [orb].
  destruct r1 as [| c2 r2]; [reflexivity |].
  destruct (is_space2 c1 c2); [discriminate |]. cbn [orb].
  destruct r2 as [| c3 r3]; [reflexivity |].
  destruct (is_space3 c1 c2 c3); [discriminate | reflexivity].
Qed.

Lemma starts_with_space_prefix (a b : string) :
  starts_with_space (a +:+ b) = false -> starts_with_space a = false.
Proof.
  destruct a as [| c1 a1]; [reflexivity |].
  rewrite append_cons. cbn [starts_with_space].
  destruct (is_space c1); cbn [orb]; [discriminate |].
  destruct a1 as [| c2 a2]; [reflexivity |].
  rewrite append_cons.
  destruct (is_space2 c1 c2); cbn [orb]; [discriminate |].
  destruct a2 as [| c3 a3]; [reflexivity |].
  rewrite append_cons. exact id.
Qed.

Lemma rstrip_prefix (s : string) : exists w, s = rstrip s +:+ w.
Proof.
  induction s as [| c r [w IH]]; [exists EmptyString; reflexivity |].
  cbn [rstrip]. destruct (is_whitespace (String c (rstrip r))).
  - exists (String c r). reflexivity.
  - exists w. rewrite append_cons, <- IH. reflexivity.
Qed.

Lemma rstrip_head (s : string) :
  starts_with_space s = false -> starts_with_space (rstrip s) = false.
Proof.
  intros Hs. destruct (rstrip_prefix s) as [w Hw].
  rewrite Hw in Hs. apply starts_with_space_prefix in Hs. exact Hs.
Qed.

Lemma rstrip_idempotent (s : string) : rstrip (rstrip s) = rstrip s.
Proof.
  induction s as [| c r IH]; [reflexivity |]. cbn [rstrip].
  destruct (is_whitespace (String c (rstrip r))) eqn:Hw; [reflexivity |].
  cbn [rstrip]. rewrite IH, Hw. reflexivity.
Qed.

(** X3: [strip] leaves nothing to strip: its result is unchanged by
    stripping on the left, on the right, or on both sides again. *)
Theorem strip_idempotent (s : string) :
  lstrip (strip s) = strip s /\
  rstrip (strip s) = strip s /\
  strip (strip s) = strip s.
Proof.
  assert (Hl : lstrip (strip s) = strip s)
    by (apply lstrip_fixed, rstrip_head, lstrip_no_space).
  assert (Hr : rstrip (strip s) = strip s) by apply rstrip_idempotent.
  repeat split; [exact Hl | exact Hr |].
  unfold strip at 1. rewrite Hl. exact Hr.
Qed.

(** A whitespace byte of the ASCII range is no part of a longer whitespace
    code point. *)
Lemma is_space_single (c : ascii) :
  is_space c = true ->
  (forall c1, is_space2 c1 c = false) /\
  (forall c1 c2, is_space3 c1 c2 c = false).
Proof.
  unfold is_space, is_space2, is_space3. intros Hc.
  assert (Hn : nat_of_ascii c <= 32).
  { apply orb_true_iff in Hc as [Hc | Hc];
      apply andb_true_iff in Hc as [_ Hc]; apply Nat.leb_le in Hc; lia. }
  split; intros.
  - destruct (Nat.eqb_spec (nat_of_ascii c) 133); [lia |].
    destruct (Nat.eqb_spec (nat_of_ascii c) 160); [lia |].
    apply andb_false_r.
  - destruct (Nat.eqb_spec (nat_of_ascii c) 128); [lia |].
    destruct (Nat.leb_spec 128 (nat_of_ascii c)); [lia |].
    destruct (Nat.eqb_spec (nat_of_ascii c) 168); [lia |].
    destruct (Nat.eqb_spec (nat_of_ascii c) 169); [lia |].
    destruct (Nat.eqb_spec (nat_of_ascii c) 175); [lia |].
    destruct (Nat.eqb_spec (nat_of_ascii c) 159); [lia |].
    cbn [andb orb]. rewrite !andb_false_r. reflexivity.
Qed.

Lemma rstrip_space_end (s : string) (c : ascii) :
  is_space c = true -> rstrip (s +:+ String c EmptyString) = rstrip s.
Proof.
  intros Hc. induction s as [| c' r IH].
  - change (rstrip (String c EmptyString) = EmptyString).
    cbn [rstrip is_whitespace]. rewrite Hc. reflexivity.
  - rewrite append_cons. cbn [rstrip]. rewrite IH. reflexivity.
Qed.

Lemma lstrip_space_end (s : string) (c : ascii) :
  is_space c = true ->
  lstrip (s +:+ String c EmptyString) = lstrip s +:+ String c EmptyString
  \/ (lstrip (s +:+ String c EmptyString) = EmptyString
      /\ lstrip s = EmptyString).
Proof.
  intros Hc. destruct (is_space_single c Hc) as [Hc2 Hc3].
  induction s as [s IH] using string_length_ind.
  destruct s as [| c1 r1].
  { right. change (lstrip (String c EmptyString) = EmptyString
                   /\ EmptyString = EmptyString).
    cbn [lstrip]. rewrite Hc. split; reflexivity. }
  rewrite append_cons. cbn [lstrip].
  destruct (is_space c1) eqn:H1; [apply IH; cbn; lia |].
  destruct r1 as [| c2 r2].
  { left. change (EmptyString +:+ String c EmptyString)
            with (String c EmptyString).
    cbv beta iota. rewrite Hc2. reflexivity. }
  rewrite append_cons. cbv beta iota.
  destruct (is_space2 c1 c2) eqn:H2; [apply IH; cbn; lia |].
  destruct r2 as [| c3 r3].
  { left. change (EmptyString +:+ String c EmptyString)
            with (String c EmptyString).
    cbv beta iota. rewrite Hc3. reflexivity. }
  rewrite append_cons. cbv beta iota.
  destruct (is_space3 c1 c2 c3) eqn:H3; [apply IH; cbn; lia |].
  left. reflexivity.
Qed.

(** X4: a trailing whitespace character, the line's newline in particular,
    never reaches the parsed text. *)
Theorem strip_drops_line_end (s : string) (c : ascii) :
  is_space c = true -> strip (s +:+ String c EmptyString) = strip s.
Proof.
  intros Hc. unfold strip.
  destruct (lstrip_space_end s c Hc) as [-> | [-> ->]];
    [apply rstrip_space_end; exact Hc | reflexivity].
Qed.

Lemma load_env_lines_cons (line : string) (rest : list string)
    (config : gmap string string) :
  load_env_lines (line :: rest) config =
    if active_line line then
      match split_once "=" (strip line) with
      | Some (key, value) => load_env_lines rest (<[key := value]> config)
      | None =>
          raise (ValueError "not enough values to unpack (expected 2, got 1)")
      end
    else load_env_lines rest config.
Proof. reflexivity. Qed.

Lemma bind_ext {A B} (m : M A) (k1 k2 : A -> M B) :
  (forall a, k1 a = k2 a) -> bind m k1 = bind m k2.
Proof. intros H. destruct m as [t [e | a]]; cbn; [| rewrite H]; reflexivity. Qed.

Lemma load_env_lines_app (l1 l2 : list string) :
  forall config,
    load_env_lines (l1 ++ l2) config =
      bind (load_env_lines l1 config) (load_env_lines l2).
Proof.
  induction l1 as [| line rest IH]; intros config.
  - cbn. destruct (load_env_lines l2 config). reflexivity.
  - rewrite <- app_comm_cons, !load_env_lines_cons.
    destruct (active_line line); [| apply IH].
    destruct (split_once "=" (strip line)) as [[key value] |];
      [apply IH | reflexivity].
Qed.

(** X5: reading a file in two parts composes: the lines of the second part
    are applied to the dictionary the first part produced, and an error in
    the first part ends the reading. *)
Theorem load_env_lines_compose (l1 l2 : list string)
    (config : gmap string string) :
  load_env_lines (l1 ++ l2) config =
    match load_env_lines l1 config with
    | (_, inr config1) => load_env_lines l2 config1
    | (_, inl e) => ([], inl e)
    end.
Proof.
  rewrite load_env_lines_app.
  pose proof (load_env_lines_trace l1 config) as Ht.
  destruct (load_env_lines l1 config) as [t [e | config1]];
    cbn in Ht; subst t; cbn; [reflexivity |].
  destruct (load_env_lines l2 config1). reflexivity.
Qed.

(** X6: a blank line or a comment line, wherever it stands in the file,
    changes nothing. *)
Theorem load_env_lines_skips_comments (l1 l2 : list string) (line : string)
    (config : gmap string string) :
  active_line line = false ->
  load_env_lines (l1 ++ line :: l2) config = load_env_lines (l1 ++ l2) config.
Proof.
  intros Hline. rewrite !load_env_lines_app. apply bind_ext.
  intros config1. rewrite load_env_lines_cons, Hline. reflexivity.
Qed.

Lemma load_env_lines_wellformed (lines : list string) :
  forall config,
    (existsb malformed_line lines = true ->
     load_env_lines lines config =
       ([], inl (ValueError "not enough values to unpack (expected 2, got 1)")))
    /\
    (existsb malformed_line lines = false ->
     exists config', load_env_lines lines config = ([], inr config')).
Proof.
  induction lines as [| line rest IH]; intros config.
  - split; [discriminate | intros _; eexists; reflexivity].
  - rewrite load_env_lines_cons. cbn [existsb]. unfold malformed_line at 1 3.
    destruct (active_line line); cbn [andb orb]; [| apply IH].
    destruct (split_once "=" (strip line)) as [[key value] |] eqn:Hsplit.
    + assert (Hocc : occurs "=" (strip line) = true).
      { destruct (occurs "=" (strip line)) eqn:Ho; [reflexivity |].
        apply split_once_None_iff in Ho. congruence. }
      rewrite Hocc. cbn [negb orb]. apply IH.
    + apply split_once_None_iff in Hsplit. rewrite Hsplit. cbn [negb orb].
      split; [reflexivity | discriminate].
Qed.

(** X7: reading fails exactly when some line that is neither blank nor a
    comment has no [=]; the failure is the [ValueError] of the unpacking, and
    without such a line a dictionary is returned. *)
Theorem load_env_lines_fails_iff_malformed (lines : list string)
    (config : gmap string string) :
  (existsb malformed_line lines = true ->
   load_env_lines lines config =
     ([], inl (ValueError "not enough values to unpack (expected 2, got 1)")))
  /\
  (existsb malformed_line lines = false ->
   exists config', load_env_lines lines config = ([], inr config')).
Proof. apply load_env_lines_wellformed. Qed.

(** X8: a later assignment wins: after one more line [key=value] the
    dictionary maps [key] to [value] and every other key as before. *)
Theorem load_env_lines_last_wins (lines : list string) (line key value : string)
    (config config' : gmap string string) :
  load_env_lines lines config = ([], inr config') ->
  active_line line = true ->
  split_once "=" (strip line) = Some (key, value) ->
  load_env_lines (lines ++ [line]) config = ([], inr (<[key := value]> config'))
  /\ (<[key := value]> config') !! key = Some value
  /\ (forall k, k <> key -> (<[key := value]> config') !! k = config' !! k).
Proof.
  intros Hlines Hactive Hsplit. split; [| split].
  - rewrite load_env_lines_app, Hlines. cbn [bind].
    rewrite load_env_lines_cons, Hactive, Hsplit. reflexivity.
  - apply lookup_insert_eq.
  - intros k Hk. apply lookup_insert_ne. congruence.
Qed.

Lemma load_env_lines_last_wins_witness :
  load_env_lines ["A=1" +:+ nl; "# note" +:+ nl] ∅ = ([], inr {["A" := "1"]}) /\
  load_env_lines (["A=1" +:+ nl; "# note" +:+ nl] ++ ["A=2=x" +:+ nl]) ∅
    = ([], inr (<["A" := "2=x"]> {["A" := "1"]})) /\
  (<["A" := "2=x"]> ({["A" := "1"]} : gmap string string)) !! "A" = Some "2=x".
Proof.
  assert (H1 : load_env_lines ["A=1" +:+ nl; "# note" +:+ nl] ∅
               = ([], inr {["A" := "1"]})) by reflexivity.
  split; [exact H1 |].
  destruct (load_env_lines_last_wins
              ["A=1" +:+ nl; "# note" +:+ nl] ("A=2=x" +:+ nl) "A" "2=x"
              ∅ {["A" := "1"]} H1 eq_refl eq_refl) as (H2 & H3 & _).
  split; [exact H2 | exact H3].
Defined.

Lemma load_env_lines_skips_comments_witness :
  active_line ("  # a comment" +:+ nl) = false /\
  load_env_lines (["A=1" +:+ nl] ++ ("  # a comment" +:+ nl) :: ["B=2" +:+ nl]) ∅
    = load_env_lines (["A=1" +:+ nl] ++ ["B=2" +:+ nl]) ∅.
Proof.
  split; [reflexivity |].
  apply (load_env_lines_skips_comments
           ["A=1" +:+ nl] ["B=2" +:+ nl] ("  # a comment" +:+ nl) ∅).
  reflexivity.
Defined.

Lemma strip_drops_line_end_witness :
  is_space (ascii_of_nat 10) = true /\
  strip ("KEY=value" +:+ nl) = strip "KEY=value".
Proof.
  split; [reflexivity |].
  apply (strip_drops_line_end "KEY=value" (ascii_of_nat 10)). reflexivity.
Defined.

(** ** Loading the configuration file *)

Lemma load_env_config_unfold (fs : FileSystem) :
  load_env_config fs =
    match fs_read_lines fs "env_config.txt" with
    | inr lines =>
        (OpenRead "env_config.txt" :: trace (load_env_lines lines ∅),
         outcome (load_env_lines lines ∅))
    | inl e =>
        if is_FileNotFoundError e then
          ([OpenRead "env_config.txt"; Print "❌ env_config.txt 文件不存在"],
           inr ∅)
        else ([OpenRead "env_config.txt"], inl e)
    end.
Proof.
  unfold load_env_config, call, bind.
  destruct (fs_read_lines fs "env_config.txt") as [e | lines].
  - cbn. destruct (is_FileNotFoundError e); reflexivity.
  - destruct (load_env_lines_wellformed lines ∅) as [Hbad Hgood].
    destruct (existsb malformed_line lines).
    + rewrite (Hbad eq_refl). reflexivity.
    + destruct (Hgood eq_refl) as [config ->]. reflexivity.
Qed.

(** X9: without [env_config.txt] the loader reports the missing file and
    returns an empty dictionary instead of raising. *)
Theorem load_env_config_missing_file (fs : FileSystem) (msg : string) :
  fs_read_lines fs "env_config.txt" = inl (FileNotFoundError msg) ->
  load_env_config fs =
    ([OpenRead "env_config.txt"; Print "❌ env_config.txt 文件不存在"], inr ∅).
Proof. intros H. rewrite load_env_config_unfold, H. reflexivity. Qed.

Lemma load_env_config_missing_file_witness :
  fs_read_lines Sample.fs_without_config "env_config.txt"
    = inl (FileNotFoundError "env_config.txt") /\
  load_env_config Sample.fs_without_config =
    ([OpenRead "env_config.txt"; Print "❌ env_config.txt 文件不存在"], inr ∅).
Proof.
  split; [reflexivity |].
  apply (load_env_config_missing_file Sample.fs_without_config "env_config.txt").
  reflexivity.
Defined.

(** X10: only a missing file is forgiven: any other error that opening the
    file raises, and the [ValueError] of a line without [=], leave the loader
    as they are. *)
Theorem load_env_config_propagates_other_errors (fs : FileSystem) :
  (forall e,
     fs_read_lines fs "env_config.txt" = inl e ->
     is_FileNotFoundError e = false ->
     load_env_config fs = ([OpenRead "env_config.txt"], inl e)) /\
  (forall lines,
     fs_read_lines fs "env_config.txt" = inr lines ->
     existsb malformed_line lines = true ->
     load_env_config fs =
       ([OpenRead "env_config.txt"],
        inl (ValueError "not enough values to unpack (expected 2, got 1)"))).
Proof.
  split.
  - intros e H He. rewrite load_env_config_unfold, H, He. reflexivity.
  - intros lines H Hbad. rewrite load_env_config_unfold, H.
    rewrite (proj1 (load_env_lines_wellformed lines ∅) Hbad). reflexivity.
Qed.

(** ** The helpers of [main] under failure *)

Lemma outcome_bind {A B} (m : M A) (k : A -> M B) :
  snd (bind m k) =
    match snd m with
    | inl e => inl e
    | inr a => snd (k a)
    end.
Proof. destruct m as [t [e | a]]; cbn; [reflexivity |]. destruct (k a). reflexivity. Qed.

Lemma get_storage_buckets_unfold (supabase : Client) :
  get_storage_buckets supabase =
    match storage_list_buckets supabase with
    | inr buckets =>
        ([ListBuckets;
          Print ("✅ 发现 " +:+ pretty (length buckets) +:+ " 个存储桶")],
         inr buckets)
    | inl e =>
        ([ListBuckets; Print ("❌ 获取存储桶信息时出错: " +:+ exn_str e)],
         inr [])
    end.
Proof.
  unfold get_storage_buckets, call, try_except, bind, emit, ret.
  destruct (storage_list_buckets supabase); reflexivity.
Qed.

(** X11: listing the buckets never raises: the SDK's list comes back as it
    is, and a failure of the SDK is reported and answered with the empty
    list. In both cases the SDK is asked exactly once. *)
Theorem get_storage_buckets_never_raises (supabase : Client) :
  exists line,
    get_storage_buckets supabase =
      ([ListBuckets; Print line],
       inr (match storage_list_buckets supabase with
            | inr buckets => buckets
            | inl _ => []
            end)).
Proof.
  rewrite get_storage_buckets_unfold.
  destruct (storage_list_buckets supabase); eexists; reflexivity.
Qed.

Lemma save_database_schema_cases (fs : FileSystem)
    (tables_info buckets_info : list json) :
  save_database_schema fs tables_info buckets_info =
    match fs_write fs "database_schema.json" with
    | inr _ =>
        ([DumpJson "database_schema.json" (schema_data tables_info buckets_info);
          Print "✅ 已保存数据库schema信息到 database_schema.json"],
         inr true)
    | inl e =>
        ([DumpJson "database_schema.json" (schema_data tables_info buckets_info);
          Print ("❌ 保存schema文件时出错: " +:+ exn_str e)],
         inr false)
    end.
Proof.
  unfold save_database_schema, call, try_except, bind, emit, ret.
  destruct (fs_write fs "database_schema.json") as [e | []]; reflexivity.
Qed.

(** X12: saving the snapshot never raises; it answers [True] exactly when
    the write succeeded, and a failed write is reported with the text of the
    error. *)
Theorem save_database_schema_reports_write (fs : FileSystem)
    (tables_info buckets_info : list json) :
  (exists ok, outcome (save_database_schema fs tables_info buckets_info) = inr ok
              /\ (ok = true <-> exists u, fs_write fs "database_schema.json" = inr u))
  /\ (forall e,
        fs_write fs "database_schema.json" = inl e ->
        In (Print ("❌ 保存schema文件时出错: " +:+ exn_str e))
           (trace (save_database_schema fs tables_info buckets_info))).
Proof.
  rewrite save_database_schema_cases.
  destruct (fs_write fs "database_schema.json") as [e | u]; cbn; split.
  - exists false. split; [reflexivity |].
    split; [discriminate | intros [u Hu]; discriminate Hu].
  - intros e' [= <-]. right. left. reflexivity.
  - exists true. split; [reflexivity |]. split; [eauto | reflexivity].
  - intros e' He. discriminate He.
Qed.

Lemma create_env_file_cases (fs : FileSystem) :
  create_env_file fs =
    match fs_read_lines fs "env_config.txt" with
    | inl e =>
        ([OpenRead "env_config.txt";
          Print ("❌ 创建.env文件时出错: " +:+ exn_str e)], inr false)
    | inr lines =>
        match fs_open_write fs ".env" with
        | inl e =>
            ([OpenRead "env_config.txt"; OpenWrite ".env";
              Print ("❌ 创建.env文件时出错: " +:+ exn_str e)], inr false)
        | inr _ =>
            match fs_read_error fs "env_config.txt" with
            | Some e =>
                ([OpenRead "env_config.txt"; OpenWrite ".env";
                  Print ("❌ 创建.env文件时出错: " +:+ exn_str e)], inr false)
            | None =>
                match fs_write fs ".env" with
                | inl e =>
                    ([OpenRead "env_config.txt"; OpenWrite ".env";
                      WriteText ".env" (String.concat "" lines);
                      Print ("❌ 创建.env文件时出错: " +:+ exn_str e)],
                     inr false)
                | inr _ =>
                    ([OpenRead "env_config.txt"; OpenWrite ".env";
                      WriteText ".env" (String.concat "" lines);
                      Print "✅ 已创建 .env 文件"], inr true)
                end
            end
        end
    end.
Proof.
  unfold create_env_file, file_read, call, try_except, bind, emit, ret, raise.
  destruct (fs_read_lines fs "env_config.txt") as [e | lines];
    [reflexivity |].
  destruct (fs_open_write fs ".env") as [e | []]; [reflexivity |].
  destruct (fs_read_error fs "env_config.txt") as [e |]; [reflexivity |].
  destruct (fs_write fs ".env") as [e | []]; reflexivity.
Qed.

(** X13: creating [.env] never raises.  When [env_config.txt] cannot be
    opened, [.env] is not touched.  Otherwise [.env] is opened for writing,
    and so emptied, before the source is read; what is written to it, when
    that opening and the reading succeed, is the source as it is; the answer
    is [True] exactly when opening, reading and writing all succeed. *)
Theorem create_env_file_copies_verbatim (fs : FileSystem) :
  (exists ok, outcome (create_env_file fs) = inr ok) /\
  (forall e,
     fs_read_lines fs "env_config.txt" = inl e ->
     create_env_file fs =
       ([OpenRead "env_config.txt";
         Print ("❌ 创建.env文件时出错: " +:+ exn_str e)], inr false)) /\
  (forall lines,
     fs_read_lines fs "env_config.txt" = inr lines ->
     exists rest,
       trace (create_env_file fs) =
         OpenRead "env_config.txt" :: OpenWrite ".env" :: rest /\
       filter is_WriteText rest =
         match fs_open_write fs ".env", fs_read_error fs "env_config.txt" with
         | inr _, None => [WriteText ".env" (String.concat "" lines)]
         | _, _ => []
         end /\
       (outcome (create_env_file fs) = inr true <->
        (exists u, fs_open_write fs ".env" = inr u) /\
        fs_read_error fs "env_config.txt" = None /\
        (exists u, fs_write fs ".env" = inr u))).
Proof.
  rewrite create_env_file_cases. split; [| split].
  - destruct (fs_read_lines fs "env_config.txt"); [eexists; reflexivity |].
    destruct (fs_open_write fs ".env"); [eexists; reflexivity |].
    destruct (fs_read_error fs "env_config.txt"); [eexists; reflexivity |].
    destruct (fs_write fs ".env"); eexists; reflexivity.
  - intros e ->. reflexivity.
  - intros lines ->.
    destruct (fs_open_write fs ".env") as [e | u].
    { eexists. split; [reflexivity |]. split; [reflexivity |].
      split; [discriminate | intros [[u Hu] _]; discriminate Hu]. }
    destruct (fs_read_error fs "env_config.txt") as [e |].
    { eexists. split; [reflexivity |]. split; [reflexivity |].
      split; [discriminate | intros (_ & He & _); discriminate He]. }
    destruct (fs_write fs ".env") as [e | u'].
    + eexists. split; [reflexivity |]. split; [reflexivity |].
      split; [discriminate | intros (_ & _ & [u'' Hu]); discriminate Hu].
    + eexists. split; [reflexivity |]. split; [reflexivity |].
      split; [eauto | reflexivity].
Qed.

Lemma create_example_edge_function_cases (fs : FileSystem) :
  create_example_edge_function fs =
    match fs_mkdir fs "supabase/functions/example-function" with
    | inl e => ([Mkdir "supabase/functions/example-function"], inl e)
    | inr _ =>
        match fs_exists_error fs
                "supabase/functions/example-function/index.ts" with
        | Some e => ([Mkdir "supabase/functions/example-function"], inl e)
        | None =>
            if fs_exists fs "supabase/functions/example-function/index.ts"
            then ([Mkdir "supabase/functions/example-function"], inr tt)
            else
              match fs_write fs
                      "supabase/functions/example-function/index.ts" with
              | inr _ =>
                  ([Mkdir "supabase/functions/example-function";
                    WriteText "supabase/functions/example-function/index.ts"
                              example_code;
                    Print "✅ 已创建示例Edge Function: supabase/functions/example-function/index.ts"],
                   inr tt)
              | inl e =>
                  ([Mkdir "supabase/functions/example-function";
                    WriteText "supabase/functions/example-function/index.ts"
                              example_code;
                    Print ("❌ 创建示例函数时出错: " +:+ exn_str e)],
                   inr tt)
              end
        end
    end.
Proof.
  unfold create_example_edge_function, path_exists, call, bind.
  destruct (fs_mkdir fs "supabase/functions/example-function") as [e | []];
    [reflexivity |].
  change ("supabase/functions/example-function" +:+ "/index.ts")
    with "supabase/functions/example-function/index.ts".
  destruct (fs_exists_error fs "supabase/functions/example-function/index.ts");
    [reflexivity |].
  unfold ret.
  destruct (fs_exists fs "supabase/functions/example-function/index.ts");
    [reflexivity |].
  unfold try_except, emit, bind, negb.
  destruct (fs_write fs "supabase/functions/example-function/index.ts")
    as [e | []]; reflexivity.
Qed.

(** X14: an [index.ts] that is already there is never overwritten: the
    function then makes the directory and writes nothing. *)
Theorem create_example_edge_function_keeps_existing (fs : FileSystem) :
  fs_exists fs "supabase/functions/example-function/index.ts" = true ->
  filter is_WriteText (trace (create_example_edge_function fs)) = [] /\
  trace (create_example_edge_function fs)
    = [Mkdir "supabase/functions/example-function"].
Proof.
  intros Hexists. rewrite create_example_edge_function_cases, Hexists.
  destruct (fs_mkdir fs "supabase/functions/example-function");
    [split; reflexivity |].
  destruct (fs_exists_error fs "supabase/functions/example-function/index.ts");
    split; reflexivity.
Qed.

(** X15: the function raises in two cases, each with the error at hand: when
    the directory cannot be made, and when looking for [index.ts] raises;
    both happen outside the [try].  A failed write of [index.ts] is reported
    and swallowed. *)
Theorem create_example_edge_function_raises_iff (fs : FileSystem) :
  outcome (create_example_edge_function fs) =
    match fs_mkdir fs "supabase/functions/example-function" with
    | inl e => inl e
    | inr _ =>
        match fs_exists_error fs
                "supabase/functions/example-function/index.ts" with
        | Some e => inl e
        | None => inr tt
        end
    end.
Proof.
  rewrite create_example_edge_function_cases.
  destruct (fs_mkdir fs "supabase/functions/example-function");
    [reflexivity |].
  destruct (fs_exists_error fs "supabase/functions/example-function/index.ts");
    [reflexivity |].
  destruct (fs_exists fs "supabase/functions/example-function/index.ts");
    [reflexivity |].
  destruct (fs_write fs "supabase/functions/example-function/index.ts");
    reflexivity.
Qed.

Lemma create_example_edge_function_keeps_existing_witness :
  fs_exists Sample.fs_read_only "supabase/functions/example-function/index.ts"
    = true /\
  filter is_WriteText (trace (create_example_edge_function Sample.fs_read_only))
    = [] /\
  trace (create_example_edge_function Sample.fs_read_only)
    = [Mkdir "supabase/functions/example-function"].
Proof.
  split; [reflexivity |].
  apply (create_example_edge_function_keeps_existing Sample.fs_read_only).
  reflexivity.
Defined.

(** ** The whole run *)

Section MainRun.

Variable sdk : option string -> option string -> exn + Client.
Variable fs : FileSystem.

Lemma main_client_block (u k : option string) :
  try_except
    (let* client := create_client sdk u k in
     let* _ := emit (Print "✅ Supabase 客户端创建成功") in
     ret (Some client))
    (fun e =>
       let* _ := emit (Print ("❌ 创建Supabase客户端失败: " +:+ exn_str e)) in
       ret None) =
    match sdk u k with
    | inr client =>
        ([CreateClient u k; Print "✅ Supabase 客户端创建成功"],
         inr (Some client))
    | inl e =>
        ([CreateClient u k;
          Print ("❌ 创建Supabase客户端失败: " +:+ exn_str e)], inr None)
    end.
Proof.
  unfold create_client, call, try_except, bind, emit, ret.
  destruct (sdk u k); reflexivity.
Qed.

Lemma save_database_schema_outcome (tables_info buckets_info : list json) :
  exists ok, snd (save_database_schema fs tables_info buckets_info) = inr ok.
Proof.
  rewrite save_database_schema_cases.
  destruct (fs_write fs "database_schema.json"); eexists; reflexivity.
Qed.

Lemma create_env_file_outcome :
  exists ok, snd (create_env_file fs) = inr ok.
Proof.
  rewrite create_env_file_cases.
  destruct (fs_read_lines fs "env_config.txt"); [eexists; reflexivity |].
  destruct (fs_open_write fs ".env"); [eexists; reflexivity |].
  destruct (fs_read_error fs "env_config.txt"); [eexists; reflexivity |].
  destruct (fs_write fs ".env"); eexists; reflexivity.
Qed.

Lemma get_storage_buckets_outcome (supabase : Client) :
  exists buckets, snd (get_storage_buckets supabase) = inr buckets.
Proof.
  rewrite get_storage_buckets_unfold.
  destruct (storage_list_buckets supabase); eexists; reflexivity.
Qed.

Lemma create_example_edge_function_outcome :
  snd (create_example_edge_function fs) =
    match fs_mkdir fs "supabase/functions/example-function" with
    | inl e => inl e
    | inr _ =>
        match fs_exists_error fs
                "supabase/functions/example-function/index.ts" with
        | Some e => inl e
        | None => inr tt
        end
    end.
Proof.
  rewrite create_example_edge_function_cases.
  destruct (fs_mkdir fs "supabase/functions/example-function");
    [reflexivity |].
  destruct (fs_exists_error fs "supabase/functions/example-function/index.ts");
    [reflexivity |].
  destruct (fs_exists fs "supabase/functions/example-function/index.ts");
    [reflexivity |].
  destruct (fs_write fs "supabase/functions/example-function/index.ts");
    reflexivity.
Qed.

Lemma main_outcome_unfold :
  snd (main sdk fs) =
    match snd (load_env_config fs) with
    | inl e => inl e
    | inr config =>
        if bool_decide (config = ∅) then inr tt
        else if negb (truthy (config !! "SUPABASE_URL"))
                || negb (truthy (config !! "SUPABASE_SERVICE_ROLE_KEY"))
        then inr tt
        else
          match sdk (config !! "SUPABASE_URL")
                    (config !! "SUPABASE_SERVICE_ROLE_KEY") with
          | inl _ => inr tt
          | inr _ =>
              match fs_mkdir fs "supabase/functions/example-function" with
              | inl e => inl e
              | inr _ =>
                  match fs_exists_error fs
                          "supabase/functions/example-function/index.ts" with
                  | Some e => inl e
                  | None => inr tt
                  end
              end
          end
    end.
Proof.
  unfold main. rewrite outcome_bind. cbn [emit snd]. rewrite outcome_bind.
  destruct (snd (load_env_config fs)) as [e | config]; [reflexivity |].
  destruct (bool_decide (config = ∅)); [reflexivity |].
  destruct (negb (truthy (config !! "SUPABASE_URL"))
            || negb (truthy (config !! "SUPABASE_SERVICE_ROLE_KEY")));
    [reflexivity |].
  rewrite outcome_bind. cbn [emit snd]. rewrite outcome_bind.
  rewrite main_client_block.
  destruct (sdk (config !! "SUPABASE_URL")
                (config !! "SUPABASE_SERVICE_ROLE_KEY")) as [e | supabase];
    [reflexivity |].
  cbn [snd]. rewrite outcome_bind, test_supabase_connection_unfold.
  cbn [snd negb]. rewrite outcome_bind. cbn [emit snd].
  rewrite outcome_bind, get_database_tables_unfold. cbn [snd].
  rewrite outcome_bind. cbn [emit snd]. rewrite outcome_bind.
  destruct (get_storage_buckets_outcome supabase) as [buckets ->].
  rewrite outcome_bind.
  match goal with
  | |- context [save_database_schema fs ?t ?b] =>
      destruct (save_database_schema_outcome t b) as [saved ->]
  end.
  rewrite outcome_bind. cbn [emit snd]. rewrite outcome_bind.
  destruct create_env_file_outcome as [copied ->].
  rewrite outcome_bind. cbn [emit snd]. rewrite outcome_bind.
  rewrite create_example_edge_function_outcome.
  destruct (fs_mkdir fs "supabase/functions/example-function");
    [reflexivity |].
  destruct (fs_exists_error fs "supabase/functions/example-function/index.ts");
    reflexivity.
Qed.

(** X16: [main] raises in three cases only, each time with the error at
    hand: when loading the configuration file raises, when the directory of
    the example function cannot be made, and when looking for [index.ts]
    raises.  No failure of the SDK and no failed write makes it raise. *)
Theorem main_outcome :
  outcome (main sdk fs) =
    match outcome (load_env_config fs) with
    | inl e => inl e
    | inr config =>
        if bool_decide (config = ∅) then inr tt
        else if negb (truthy (config !! "SUPABASE_URL"))
                || negb (truthy (config !! "SUPABASE_SERVICE_ROLE_KEY"))
        then inr tt
        else
          match sdk (config !! "SUPABASE_URL")
                    (config !! "SUPABASE_SERVICE_ROLE_KEY") with
          | inl _ => inr tt
          | inr _ =>
              match fs_mkdir fs "supabase/functions/example-function" with
              | inl e => inl e
              | inr _ =>
                  match fs_exists_error fs
                          "supabase/functions/example-function/index.ts" with
                  | Some e => inl e
                  | None => inr tt
                  end
              end
          end
    end.
Proof. apply main_outcome_unfold. Qed.

(** X17: [main] never asks the SDK for a client with a missing or empty URL
    or key. *)
Theorem main_requests_client_with_credentials :
  Forall client_requested_with_credentials (trace (main sdk fs)).
Proof.
  unfold main, load_env_config, create_client, test_supabase_connection,
    get_storage_buckets, create_env_file, create_example_edge_function,
    file_read, path_exists.
  trace_forall; try exact I.
  all: try (rewrite load_env_lines_trace; constructor).
  match goal with
  | H : negb (truthy ?u) || negb (truthy ?k) = false |- _ =>
      apply orb_false_iff in H as [Hu Hk];
      apply negb_false_iff in Hu, Hk
  end.
  split; assumption.
Qed.

(** X18: without [env_config.txt], [main] reports the missing file and
    stops: no client is requested and nothing is written. *)
Theorem main_without_config_file (msg : string) :
  fs_read_lines fs "env_config.txt" = inl (FileNotFoundError msg) ->
  main sdk fs =
    ([Print "🚀 开始下载 Supabase 数据...";
      OpenRead "env_config.txt";
      Print "❌ env_config.txt 文件不存在"], inr tt).
Proof.
  intros H. unfold main. rewrite load_env_config_unfold, H. reflexivity.
Qed.

Lemma load_env_lines_inactive (lines : list string) :
  forall config,
    forallb (fun line => negb (active_line line)) lines = true ->
    load_env_lines lines config = ([], inr config).
Proof.
  induction lines as [| line rest IH]; intros config; [reflexivity |].
  cbn [forallb]. intros [Hline Hrest]%andb_true_iff.
  apply negb_true_iff in Hline.
  rewrite load_env_lines_cons, Hline. apply IH, Hrest.
Qed.

(** X19: when [env_config.txt] holds only blank lines and comments, [main]
    stops right after reading it, without any message. *)
Theorem main_silent_on_empty_config (lines : list string) :
  fs_read_lines fs "env_config.txt" = inr lines ->
  forallb (fun line => negb (active_line line)) lines = true ->
  main sdk fs =
    ([Print "🚀 开始下载 Supabase 数据..."; OpenRead "env_config.txt"], inr tt).
Proof.
  intros H Hlines. unfold main. rewrite load_env_config_unfold, H.
  rewrite (load_env_lines_inactive lines ∅ Hlines). reflexivity.
Qed.

(** X20: when the file gives no URL or no service-role key (or an empty
    one), [main] says that configuration is missing and stops before asking
    for a client. *)
Theorem main_missing_credentials (t : list event) (config : gmap string string) :
  load_env_config fs = (t, inr config) ->
  config <> ∅ ->
  truthy (config !! "SUPABASE_URL") = false
  \/ truthy (config !! "SUPABASE_SERVICE_ROLE_KEY") = false ->
  main sdk fs =
    (Print "🚀 开始下载 Supabase 数据..." :: t ++ [Print "❌ 缺少必要的配置信息"],
     inr tt).
Proof.
  intros Hload Hconfig Hmissing. unfold main. rewrite Hload.
  cbn [bind emit]. rewrite bool_decide_eq_false_2 by exact Hconfig.
  assert (Hgate : negb (truthy (config !! "SUPABASE_URL"))
                  || negb (truthy (config !! "SUPABASE_SERVICE_ROLE_KEY"))
                  = true)
    by (destruct Hmissing as [-> | ->]; [| rewrite orb_true_r]; reflexivity).
  rewrite Hgate. reflexivity.
Qed.

(** X21: when the SDK refuses to build the client, [main] reports the error
    and returns normally; no request is made and no file is written. *)
Theorem main_client_refused (t : list event) (config : gmap string string)
    (e : exn) :
  load_env_config fs = (t, inr config) ->
  truthy (config !! "SUPABASE_URL") = true ->
  truthy (config !! "SUPABASE_SERVICE_ROLE_KEY") = true ->
  sdk (config !! "SUPABASE_URL") (config !! "SUPABASE_SERVICE_ROLE_KEY")
    = inl e ->
  main sdk fs =
    (Print "🚀 开始下载 Supabase 数据..." :: t ++
     [Print ("📍 连接到: " +:+ fmt_opt (config !! "SUPABASE_URL"));
      CreateClient (config !! "SUPABASE_URL")
                   (config !! "SUPABASE_SERVICE_ROLE_KEY");
      Print ("❌ 创建Supabase客户端失败: " +:+ exn_str e)],
     inr tt).
Proof.
  intros Hload Hurl Hkey Hsdk. unfold main. rewrite Hload.
  cbn [bind emit].
  assert (Hconfig : config <> ∅)
    by (intros ->; rewrite lookup_empty in Hurl; discriminate Hurl).
  rewrite bool_decide_eq_false_2 by exact Hconfig.
  rewrite Hurl, Hkey. cbn [negb orb].
  rewrite main_client_block, Hsdk. reflexivity.
Qed.

End MainRun.

Lemma main_without_config_file_witness :
  fs_read_lines Sample.fs_without_config "env_config.txt"
    = inl (FileNotFoundError "env_config.txt") /\
  main Sample.sdk Sample.fs_without_config =
    ([Print "🚀 开始下载 Supabase 数据...";
      OpenRead "env_config.txt";
      Print "❌ env_config.txt 文件不存在"], inr tt).
Proof.
  split; [reflexivity |].
  apply (main_without_config_file Sample.sdk Sample.fs_without_config
           "env_config.txt").
  reflexivity.
Defined.

Lemma main_silent_on_empty_config_witness :
  fs_read_lines Sample.fs_comments_only "env_config.txt"
    = inr ["# nothing yet" +:+ nl; nl] /\
  main Sample.sdk Sample.fs_comments_only =
    ([Print "🚀 开始下载 Supabase 数据..."; OpenRead "env_config.txt"], inr tt).
Proof.
  split; [reflexivity |].
  apply (main_silent_on_empty_config Sample.sdk Sample.fs_comments_only
           ["# nothing yet" +:+ nl; nl]); reflexivity.
Defined.

Lemma main_missing_credentials_witness :
  load_env_config Sample.fs_url_only =
    ([OpenRead "env_config.txt"],
     inr {["SUPABASE_URL" := "https://demo.supabase.co"]}) /\
  main Sample.sdk Sample.fs_url_only =
    (Print "🚀 开始下载 Supabase 数据..." ::
     [OpenRead "env_config.txt"] ++ [Print "❌ 缺少必要的配置信息"], inr tt).
Proof.
  split; [reflexivity |].
  apply (main_missing_credentials Sample.sdk Sample.fs_url_only
           [OpenRead "env_config.txt"]
           {["SUPABASE_URL" := "https://demo.supabase.co"]}).
  - reflexivity.
  - apply insert_non_empty.
  - right. reflexivity.
Defined.

Lemma main_client_refused_witness :
  main Sample.sdk_refusing Sample.fs =
    (Print "🚀 开始下载 Supabase 数据..." ::
     [OpenRead "env_config.txt"] ++
     [Print "📍 连接到: https://demo.supabase.co";
      CreateClient (Some "https://demo.supabase.co") (Some "service");
      Print "❌ 创建Supabase客户端失败: Invalid URL"],
     inr tt).
Proof.
  pose proof (main_client_refused Sample.sdk_refusing Sample.fs
                [OpenRead "env_config.txt"]
                (<["SUPABASE_SERVICE_ROLE_KEY" := "service"]>
                   {["SUPABASE_URL" := "https://demo.supabase.co"]})
                (SdkError "Invalid URL")) as H.
  exact (H eq_refl eq_refl eq_refl eq_refl).
Defined.

(** ** More on the two factories and the enumeration *)

(** X22: for the anonymous factory the configuration error is raised exactly
    on records that [validate] rejects; on every other record the SDK is
    asked once, with [url] and [anon_key], and its answer, a client or an
    exception, is passed on as it is. *)
Theorem create_supabase_client_guard
    (sdk : option string -> option string -> exn + Client)
    (config : SupabaseConfig) :
  (fails_with_configuration_error (create_supabase_client sdk config)
   <-> validate config = false) /\
  create_supabase_client sdk config =
    (if validate config then
       ([Print ("连接到 Supabase: " +:+ fmt_opt (url config));
         CreateClient (url config) (anon_key config)],
        sdk (url config) (anon_key config))
     else ([], inl (ValueError "Supabase 配置不完整，请检查环境变量"))).
Proof.
  split; [| apply create_supabase_client_unfold].
  rewrite create_supabase_client_unfold.
  destruct (validate config); split.
  - intros (msg & _ & Hnot). exfalso. apply Hnot, factory_called_here.
  - discriminate.
  - reflexivity.
  - intros _. eexists. split; [reflexivity | apply factory_called_nil].
Qed.

(** X23: the enumeration lists a table exactly when its probe answered with
    data, an empty list included: every record stems from such a probe of one
    of the five names, every such probe has its record, and there are at most
    five records. *)
Theorem get_database_tables_lists_answered (supabase : Client) :
  exists tables_info,
    outcome (get_database_tables supabase) = inr tables_info /\
    length tables_info <= 5 /\
    Forall (fun record =>
              exists table_name data,
                record = table_record table_name data /\
                In table_name common_tables /\
                table_select_limit1 supabase table_name = inr (Some data))
           tables_info /\
    (forall table_name data,
       In table_name common_tables ->
       table_select_limit1 supabase table_name = inr (Some data) ->
       In (table_record table_name data) tables_info).
Proof.
  exists (flat_map (table_entry supabase) common_tables).
  split; [rewrite get_database_tables_unfold; reflexivity |].
  split; [| split].
  - change 5 with (length common_tables).
    generalize common_tables. intros names.
    induction names as [| name rest IH]; [constructor |].
    cbn [flat_map length]. rewrite length_app. unfold table_entry at 1.
    destruct (table_select_limit1 supabase name) as [e | [data |]];
      cbn [length]; lia.
  - apply List.Forall_forall. intros record Hin.
    apply in_flat_map in Hin as (name & Hname & Hrecord).
    unfold table_entry in Hrecord.
    destruct (table_select_limit1 supabase name) as [e | [data |]] eqn:Hprobe;
      cbn in Hrecord; try contradiction.
    destruct Hrecord as [<- | []]. exists name, data. auto.
  - intros name data Hname Hprobe. apply in_flat_map.
    exists name. split; [exact Hname |].
    unfold table_entry. rewrite Hprobe. left. reflexivity.
Qed.

Lemma rstrip_app_fixed (a b : string) :
  rstrip (a +:+ b) = a +:+ b -> rstrip b = b.
Proof.
  induction a as [| c a' IH]; [exact id |].
  rewrite append_cons. cbn [rstrip].
  destruct (is_whitespace (String c (rstrip (a' +:+ b)))); [discriminate |].
  intros [= Heq]. apply IH. exact Heq.
Qed.

(** X24: what a line contributes is trimmed only at the ends of the line:
    the key holds no [=] and no leading whitespace, the value no trailing
    whitespace, and key, [=] and value together are the stripped line. *)
Theorem parsed_assignment_shape (line key value : string) :
  split_once "=" (strip line) = Some (key, value) ->
  strip line = key +:+ String "=" value /\
  occurs "=" key = false /\
  lstrip key = key /\
  rstrip value = value.
Proof.
  intros Hsplit. apply split_once_Some_iff in Hsplit as [Hline Hkey].
  repeat split; [exact Hline | exact Hkey | |].
  - pose proof (rstrip_head (lstrip line) (lstrip_no_space line)) as Hhead.
    fold (strip line) in Hhead. rewrite Hline in Hhead.
    apply lstrip_fixed, (starts_with_space_prefix key (String "=" value)).
    exact Hhead.
  - pose proof (rstrip_idempotent (lstrip line)) as Hr.
    fold (strip line) in Hr. rewrite Hline in Hr.
    apply rstrip_app_fixed in Hr.
    apply (rstrip_app_fixed (String "=" EmptyString) value). exact Hr.
Qed.

Lemma parsed_assignment_shape_witness :
  split_once "=" (strip ("  KEY = a=b  " +:+ nl)) = Some ("KEY ", " a=b") /\
  strip ("  KEY = a=b  " +:+ nl) = "KEY " +:+ String "=" " a=b" /\
  occurs "=" "KEY " = false /\
  lstrip "KEY " = "KEY " /\
  rstrip " a=b" = " a=b".
Proof.
  split; [reflexivity |].
  apply (parsed_assignment_shape ("  KEY = a=b  " +:+ nl) "KEY " " a=b").
  reflexivity.
Defined.

(** ** More sample runs *)

(** Importing the module with a valid environment asks the SDK and keeps the
    client. *)
Example import_sample :
  import_supabase_client Sample.sdk Sample.env =
    ([Getenv "SUPABASE_URL"; Getenv "SUPABASE_ANON_KEY";
      Getenv "SUPABASE_SERVICE_ROLE_KEY"; Getenv "SUPABASE_JWT_SECRET";
      Getenv "DATABASE_URL";
      Print "连接到 Supabase: https://demo.supabase.co";
      CreateClient (Some "https://demo.supabase.co") (Some "anon")],
     inr {| module_config := environ_config Sample.env;
            supabase := Sample.client |}).
Proof. reflexivity. Qed.

(** A line of non-ASCII whitespace only is blank for [strip], so it is
    skipped; around a key and a value such whitespace is removed. *)
Example unicode_whitespace_sample :
  strip (Sample.nbsp +:+ nl) = EmptyString /\
  active_line (Sample.ideographic_space +:+ nl) = false /\
  load_env_lines [Sample.nbsp +:+ nl; Sample.ideographic_space +:+ nl] ∅
    = ([], inr ∅) /\
  load_env_lines [Sample.ideographic_space +:+ "A=1" +:+ Sample.nbsp +:+ nl] ∅
    = ([], inr {["A" := "1"]}).
Proof. repeat split; reflexivity. Qed.

(** When reading [env_config.txt] fails, [.env] has already been opened for
    writing; nothing is written to it. *)
Example create_env_file_failing_read :
  create_env_file Sample.fs_failing_read =
    ([OpenRead "env_config.txt"; OpenWrite ".env";
      Print "❌ 创建.env文件时出错: Input/output error"], inr false).
Proof. reflexivity. Qed.

(** When looking for [index.ts] raises, so does [main]. *)
Example main_stat_denied :
  outcome (main Sample.sdk Sample.fs_stat_denied)
    = inl (OSError "Permission denied").
Proof. vm_compute. reflexivity. Qed.
